(** * ReactRecognize mobile client: session, request and screen orchestration

    A shallow embedding of the attendance client (the React Native
    [App.js]): the persisted session store ([AuthService]), the HTTP
    client ([ApiService]) and the event handlers of the employee home
    screen, the employee history screen and the admin registration
    screen, followed by the properties established about them.

    The embedding follows the later revision of the source, which has the
    employee-deletion and shift operations; the functions the two revisions
    share are the same text, and only the base URL constant differs.

    Asynchronous functions are computations in a state-and-exception
    monad over the world (storage, requests sent, alerts shown); the
    backend, the location service and the locale formatting are parameters.
    Rendering, styling and [console.log] calls are left out. *)

From stdpp Require Import gmap strings list pretty.

Open Scope N_scope.

(** ** JavaScript strings

    A JavaScript string is a sequence of UTF-16 code units; [length] is
    [String.prototype.length]. *)

Abbreviation jsstring := (list N).

Definition lit (s : string) : jsstring :=
  Ascii.N_of_ascii <$> String.list_ascii_of_string s.

(** [s.startsWith(p)] *)
Fixpoint startsWith (s p : jsstring) : bool :=
  match p, s with
  | [], _ => true
  | c :: p', d :: s' => (c =? d) && startsWith s' p'
  | _ :: _, [] => false
  end.

(** Truthiness of a string value that may be [null]/[undefined]. *)
Definition truthy (v : option jsstring) : bool :=
  match v with
  | Some (_ :: _) => true
  | _ => false
  end.

(** [v || fallback] for a string-or-undefined [v]. *)
Definition or_else (v : option jsstring) (fallback : jsstring) : jsstring :=
  match v with
  | Some (c :: s) => c :: s
  | _ => fallback
  end.

(** Interpolation [${v}] of a string-or-null value in a template literal. *)
Definition interp (v : option jsstring) : jsstring :=
  match v with
  | Some s => s
  | None => lit "null"
  end.

(** Interpolation [${n}] of a non-negative integer. *)
Definition interp_num (n : N) : jsstring := lit (pretty n).

Definition interp_bool (b : bool) : jsstring :=
  if b then lit "true" else lit "false".

(** ** Exceptions, requests and responses *)

Inductive error_name := Error | TypeError | SyntaxError.

Record exn := Exn { name : error_name; message : jsstring }.

(** [new Error(msg)] *)
Definition new_Error (msg : jsstring) : exn := Exn Error msg.

Inductive outcome (A : Type) :=
| Ok (a : A)
| Throw (e : exn).
Arguments Ok {A} a.
Arguments Throw {A} e.

(** Values appended to a [FormData]: a text field or the
    [{uri, type, name}] descriptor React Native uploads as a file part. *)
Inductive form_value :=
| Text (value : jsstring)
| File (uri type filename : jsstring).

Abbreviation formdata := (list (jsstring * form_value)).

(** [formData.append(k, v)] *)
Definition append (fd : formdata) (k : jsstring) (v : form_value) : formdata :=
  fd ++ [(k, v)].

Inductive body :=
| NoBody
| JsonBody (fields : list (jsstring * jsstring))
| FormBody (fd : formdata).

Record request := Request {
  url : jsstring;
  method : option jsstring;
  headers : list (jsstring * jsstring);
  req_body : body
}.

Record page_info := PageInfo { pg_page : N; pg_pages : N; pg_total : N }.

Record attendance := Attendance {
  rec_id : N; rec_date : jsstring; rec_status : jsstring
}.

(** The parsed JSON object of a response, seen through the properties the
    client reads; a property the object lacks is [None] (or [false] for
    the flags, which the client only tests for truthiness).  [d_token] is
    [data.token], [undefined] when the reply has none; [d_employee] is
    [JSON.stringify(data.employee)], which is [undefined] exactly when the
    reply has no [employee]. *)
Record data := Data {
  detail : option jsstring;
  d_token : option jsstring;
  d_employee : option jsstring;
  d_records : option (list attendance);
  d_pagination : option page_info;
  checked_in : bool;
  checked_out : bool
}.

Unset Elimination Schemes.

(** The values [JSON.parse] returns; a number is kept as its literal. *)
Inductive jsvalue :=
| JNull
| JBool (b : bool)
| JNumber (literal : jsstring)
| JString (s : jsstring)
| JArray (items : list jsvalue)
| JObject (members : list (jsstring * jsvalue)).

Set Elimination Schemes.

Record response := Response {
  rsp_status : N;
  rsp_json : exn + data      (* [inl]: the body is not JSON, [json()] rejects *)
}.

(** [response.ok] *)
Definition ok (r : response) : bool :=
  (200 <=? rsp_status r) && (rsp_status r <=? 299).

(** What [fetch] settles with: a rejection (no response at all) or a
    response of any status. *)
Inductive net_result :=
| NetworkError (e : exn)
| Reply (r : response).

(** ** The world the client runs in *)

Record world := World {
  storage : gmap string jsstring;      (* AsyncStorage *)
  sent : list request;                 (* HTTP requests issued, oldest first *)
  alerts : list (jsstring * jsstring)  (* Alert.alert(title, message) shown *)
}.

(** A computation over a state [S] that returns or throws. *)
Definition M (S A : Type) : Type := S -> outcome A * S.

Definition ret {S A} (a : A) : M S A := fun s => (Ok a, s).

Definition throw {S A} (e : exn) : M S A := fun s => (Throw e, s).

Definition bind {S A B} (m : M S A) (k : A -> M S B) : M S B :=
  fun s =>
    match m s with
    | (Ok a, s') => k a s'
    | (Throw e, s') => (Throw e, s')
    end.

Notation "'let!' x ':=' m 'in' k" := (bind m (fun x => k))
  (at level 10, x name, m at level 100, k at level 200).
Notation "m ';;' k" := (bind m (fun _ => k))
  (at level 100, k at level 200, right associativity).

(** [try { m } catch (error) { h error }] *)
Definition try_catch {S A} (m : M S A) (h : exn -> M S A) : M S A :=
  fun s =>
    match m s with
    | (Ok a, s') => (Ok a, s')
    | (Throw e, s') => h e s'
    end.

(** [try { m } finally { f }] *)
Definition try_finally {S A} (m : M S A) (f : M S unit) : M S A :=
  fun s =>
    match m s with
    | (r, s') =>
        match f s' with
        | (Ok _, s'') => (r, s'')
        | (Throw e, s'') => (Throw e, s'')
        end
    end.

(** [if (c) throw e;] *)
Definition throw_if {S} (c : bool) (e : exn) : M S unit :=
  if c then throw e else ret tt.

(** ** AsyncStorage *)

Module AsyncStorage.

Definition getItem (k : string) : M world (option jsstring) :=
  fun w => (Ok (storage w !! k), w).

Section Rejection.

(** What [setItem] rejects with when the value it is handed is [undefined]
    instead of a string, for each key. *)
Variable undefined_value : string -> exn.

Definition setItem (k : string) (v : option jsstring) : M world unit :=
  fun w =>
    match v with
    | Some v => (Ok tt, World (<[k:=v]> (storage w)) (sent w) (alerts w))
    | None => (Throw (undefined_value k), w)
    end.

End Rejection.

Definition removeItem (k : string) : M world unit :=
  fun w => (Ok tt, World (delete k (storage w)) (sent w) (alerts w)).

End AsyncStorage.

(** ** Network *)

Definition API_URL : jsstring := lit "http://0.0.0.0:8000".

Section Network.

(** The backend as the client observes it: the settlement of a request,
    given the requests that preceded it. *)
Variable server : list request -> request -> net_result.

Definition fetch (r : request) : M world response :=
  fun w =>
    let w' := World (storage w) (sent w ++ [r]) (alerts w) in
    match server (sent w) r with
    | NetworkError e => (Throw e, w')
    | Reply rsp => (Ok rsp, w')
    end.

(** [response.json()] *)
Definition json (r : response) : M world data :=
  fun w =>
    match rsp_json r with
    | inl e => (Throw e, w)
    | inr d => (Ok d, w)
    end.

End Network.

(** ** Authentication service *)

Module AuthService.

Section WithServer.

Variable server : list request -> request -> net_result.
Variable undefined_value : string -> exn.

Definition login (email password : jsstring) : M world data :=
  let! response :=
    fetch server
      (Request (API_URL ++ lit "/api/auth/login") (Some (lit "POST"))
         [(lit "Content-Type", lit "application/json")]
         (JsonBody [(lit "email", email); (lit "password", password)])) in
  let! data := json response in
  throw_if (negb (ok response)) (new_Error (or_else (detail data) (lit "Login failed"))) ;;
  AsyncStorage.setItem undefined_value "token" (d_token data) ;;
  AsyncStorage.setItem undefined_value "user" (d_employee data) ;;
  ret data.

End WithServer.

Definition logout : M world unit :=
  AsyncStorage.removeItem "token" ;;
  AsyncStorage.removeItem "user".

Definition getToken : M world (option jsstring) :=
  AsyncStorage.getItem "token".

Section WithParser.

(** [JSON.parse]: the value a text denotes, or the [SyntaxError] thrown
    for a text that is not JSON. *)
Variable JSON_parse : jsstring -> exn + jsvalue.

(** [user ? JSON.parse(user) : null] *)
Definition getUser : M world (option jsvalue) :=
  let! user := AsyncStorage.getItem "user" in
  if truthy user
  then
    match JSON_parse (interp user) with
    | inl e => throw e
    | inr parsed => ret (Some parsed)
    end
  else ret None.

End WithParser.

End AuthService.

(** ** API service *)

Module ApiService.

Section WithServer.

Variable server : list request -> request -> net_result.

Definition checkIn (latitude longitude imageUri : jsstring) : M world data :=
  let! token := AuthService.getToken in
  let formData := [] in
  let formData := append formData (lit "latitude") (Text latitude) in
  let formData := append formData (lit "longitude") (Text longitude) in
  let formData :=
    if startsWith imageUri (lit "data:image/")
    then append formData (lit "face_image_base64") (Text imageUri)
    else append formData (lit "face_image")
           (File imageUri (lit "image/jpeg") (lit "face.jpg")) in
  let! response :=
    fetch server
      (Request (API_URL ++ lit "/api/attendance/check-in") (Some (lit "POST"))
         [(lit "Authorization", lit "Bearer " ++ interp token)]
         (FormBody formData)) in
  let! data := json response in
  throw_if (negb (ok response))
    (new_Error (or_else (detail data) (lit "Check-in failed"))) ;;
  ret data.

Definition checkOut (latitude longitude imageUri : jsstring) : M world data :=
  let! token := AuthService.getToken in
  let formData := [] in
  let formData := append formData (lit "latitude") (Text latitude) in
  let formData := append formData (lit "longitude") (Text longitude) in
  let formData :=
    if startsWith imageUri (lit "data:image/")
    then append formData (lit "face_image_base64") (Text imageUri)
    else append formData (lit "face_image")
           (File imageUri (lit "image/jpeg") (lit "face.jpg")) in
  let! response :=
    fetch server
      (Request (API_URL ++ lit "/api/attendance/check-out") (Some (lit "POST"))
         [(lit "Authorization", lit "Bearer " ++ interp token)]
         (FormBody formData)) in
  let! data := json response in
  throw_if (negb (ok response))
    (new_Error (or_else (detail data) (lit "Check-out failed"))) ;;
  ret data.

Definition getStatus : M world data :=
  let! token := AuthService.getToken in
  let! response :=
    fetch server
      (Request (API_URL ++ lit "/api/employee/status") None
         [(lit "Authorization", lit "Bearer " ++ interp token)] NoBody) in
  let! data := json response in
  throw_if (negb (ok response)) (new_Error (lit "Failed to fetch status")) ;;
  ret data.

Definition getMyAttendance (page limit : N) : M world data :=
  let! token := AuthService.getToken in
  let! response :=
    fetch server
      (Request
         (API_URL ++ lit "/api/employee/my-attendance?page=" ++ interp_num page
            ++ lit "&limit=" ++ interp_num limit)
         None [(lit "Authorization", lit "Bearer " ++ interp token)] NoBody) in
  let! data := json response in
  throw_if (negb (ok response)) (new_Error (lit "Failed to fetch attendance")) ;;
  ret data.

Definition getProfile : M world data :=
  let! token := AuthService.getToken in
  let! response :=
    fetch server
      (Request (API_URL ++ lit "/api/employee/profile") None
         [(lit "Authorization", lit "Bearer " ++ interp token)] NoBody) in
  let! data := json response in
  throw_if (negb (ok response)) (new_Error (lit "Failed to fetch profile")) ;;
  ret data.

(** The fields of the [employeeData] object. *)
Record employee_data := EmployeeData {
  employee_id : jsstring;
  emp_name : jsstring;
  emp_email : jsstring;
  emp_password : jsstring;
  emp_role : jsstring
}.

Definition registerEmployee (employeeData : employee_data) (imageUri : jsstring)
  : M world data :=
  try_catch
    (let! token := AuthService.getToken in
     let formData := [] in
     let formData := append formData (lit "employee_id") (Text (employee_id employeeData)) in
     let formData := append formData (lit "name") (Text (emp_name employeeData)) in
     let formData := append formData (lit "email") (Text (emp_email employeeData)) in
     let formData := append formData (lit "password") (Text (emp_password employeeData)) in
     let formData := append formData (lit "role") (Text (emp_role employeeData)) in
     let formData :=
       if startsWith imageUri (lit "data:image/")
       then append formData (lit "face_image_base64") (Text imageUri)
       else append formData (lit "face_image")
              (File imageUri (lit "image/jpeg") (lit "face.jpg")) in
     let! response :=
       fetch server
         (Request (API_URL ++ lit "/api/admin/register-employee") (Some (lit "POST"))
            [(lit "Authorization", lit "Bearer " ++ interp token)]
            (FormBody formData)) in
     let! data := json response in
     throw_if (negb (ok response))
       (new_Error (or_else (detail data) (lit "Registration failed"))) ;;
     ret data)
    (fun error =>
       throw (new_Error (lit "Failed to register employee: " ++ message error))).

Definition getAttendance (date employeeId : option jsstring) (page limit : N)
  : M world data :=
  let! token := AuthService.getToken in
  let url :=
    API_URL ++ lit "/api/admin/attendance?page=" ++ interp_num page
      ++ lit "&limit=" ++ interp_num limit in
  let url := if truthy date then url ++ lit "&date=" ++ interp date else url in
  let url :=
    if truthy employeeId then url ++ lit "&employee_id=" ++ interp employeeId
    else url in
  let! response :=
    fetch server
      (Request url None [(lit "Authorization", lit "Bearer " ++ interp token)] NoBody) in
  let! data := json response in
  throw_if (negb (ok response)) (new_Error (lit "Failed to fetch attendance")) ;;
  ret data.

Definition getEmployees (page limit : N) : M world data :=
  let! token := AuthService.getToken in
  let! response :=
    fetch server
      (Request
         (API_URL ++ lit "/api/admin/employees?page=" ++ interp_num page
            ++ lit "&limit=" ++ interp_num limit)
         None [(lit "Authorization", lit "Bearer " ++ interp token)] NoBody) in
  let! data := json response in
  throw_if (negb (ok response)) (new_Error (lit "Failed to fetch employees")) ;;
  ret data.

Definition getAnalytics (startDate endDate : option jsstring) : M world data :=
  let! token := AuthService.getToken in
  let url := API_URL ++ lit "/api/admin/analytics?" in
  let url :=
    if truthy startDate then url ++ lit "start_date=" ++ interp startDate ++ lit "&"
    else url in
  let url := if truthy endDate then url ++ lit "end_date=" ++ interp endDate else url in
  let! response :=
    fetch server
      (Request url None [(lit "Authorization", lit "Bearer " ++ interp token)] NoBody) in
  let! data := json response in
  throw_if (negb (ok response)) (new_Error (lit "Failed to fetch analytics")) ;;
  ret data.

Definition updateEmployeeStatus (employeeId : jsstring) (isActive : bool)
  : M world data :=
  let! token := AuthService.getToken in
  let! response :=
    fetch server
      (Request
         (API_URL ++ lit "/api/admin/employees/" ++ employeeId
            ++ lit "/status?is_active=" ++ interp_bool isActive)
         (Some (lit "PATCH"))
         [(lit "Authorization", lit "Bearer " ++ interp token)] NoBody) in
  let! data := json response in
  throw_if (negb (ok response)) (new_Error (lit "Failed to update employee status")) ;;
  ret data.

Definition getSettings : M world data :=
  let! token := AuthService.getToken in
  let! response :=
    fetch server
      (Request (API_URL ++ lit "/api/admin/settings") None
         [(lit "Authorization", lit "Bearer " ++ interp token)] NoBody) in
  let! data := json response in
  throw_if (negb (ok response)) (new_Error (lit "Failed to fetch settings")) ;;
  ret data.

Definition updateSettings (settings : list (jsstring * jsstring)) : M world data :=
  let! token := AuthService.getToken in
  let! response :=
    fetch server
      (Request (API_URL ++ lit "/api/admin/settings/bulk-update") (Some (lit "POST"))
         [(lit "Authorization", lit "Bearer " ++ interp token);
          (lit "Content-Type", lit "application/json")]
         (JsonBody settings)) in
  let! data := json response in
  throw_if (negb (ok response))
    (new_Error (or_else (detail data) (lit "Failed to update settings"))) ;;
  ret data.

Definition deleteEmployee (employeeId : jsstring) : M world data :=
  let! token := AuthService.getToken in
  let! response :=
    fetch server
      (Request (API_URL ++ lit "/api/admin/employees/" ++ employeeId)
         (Some (lit "DELETE"))
         [(lit "Authorization", lit "Bearer " ++ interp token)] NoBody) in
  let! data := json response in
  throw_if (negb (ok response))
    (new_Error (or_else (detail data) (lit "Failed to delete employee"))) ;;
  ret data.

Definition getShifts : M world data :=
  let! token := AuthService.getToken in
  let! response :=
    fetch server
      (Request (API_URL ++ lit "/api/admin/shifts") None
         [(lit "Authorization", lit "Bearer " ++ interp token)] NoBody) in
  let! data := json response in
  throw_if (negb (ok response)) (new_Error (lit "Failed to fetch shifts")) ;;
  ret data.

(** [Object.keys(shiftData).forEach(key => formData.append(key, shiftData[key]))] *)
Definition append_all (formData : formdata) (shiftData : list (jsstring * jsstring))
  : formdata :=
  foldl (fun fd kv => append fd kv.1 (Text kv.2)) formData shiftData.

Definition createShift (shiftData : list (jsstring * jsstring)) : M world data :=
  let! token := AuthService.getToken in
  let formData := append_all [] shiftData in
  let! response :=
    fetch server
      (Request (API_URL ++ lit "/api/admin/shifts") (Some (lit "POST"))
         [(lit "Authorization", lit "Bearer " ++ interp token)]
         (FormBody formData)) in
  let! data := json response in
  throw_if (negb (ok response))
    (new_Error (or_else (detail data) (lit "Failed to create shift"))) ;;
  ret data.

Definition updateShift (shiftId : jsstring) (shiftData : list (jsstring * jsstring))
  : M world data :=
  let! token := AuthService.getToken in
  let formData := append_all [] shiftData in
  let! response :=
    fetch server
      (Request (API_URL ++ lit "/api/admin/shifts/" ++ shiftId) (Some (lit "PUT"))
         [(lit "Authorization", lit "Bearer " ++ interp token)]
         (FormBody formData)) in
  let! data := json response in
  throw_if (negb (ok response))
    (new_Error (or_else (detail data) (lit "Failed to update shift"))) ;;
  ret data.

Definition deleteShift (shiftId : jsstring) : M world data :=
  let! token := AuthService.getToken in
  let! response :=
    fetch server
      (Request (API_URL ++ lit "/api/admin/shifts/" ++ shiftId) (Some (lit "DELETE"))
         [(lit "Authorization", lit "Bearer " ++ interp token)] NoBody) in
  let! data := json response in
  throw_if (negb (ok response))
    (new_Error (or_else (detail data) (lit "Failed to delete shift"))) ;;
  ret data.

Definition assignShift (employeeId shiftId effectiveFrom : jsstring)
    (effectiveTo : option jsstring) : M world data :=
  let! token := AuthService.getToken in
  let formData := [] in
  let formData := append formData (lit "shift_id") (Text shiftId) in
  let formData := append formData (lit "effective_from") (Text effectiveFrom) in
  let formData :=
    if truthy effectiveTo
    then append formData (lit "effective_to") (Text (interp effectiveTo))
    else formData in
  let! response :=
    fetch server
      (Request
         (API_URL ++ lit "/api/admin/employees/" ++ employeeId ++ lit "/assign-shift")
         (Some (lit "POST"))
         [(lit "Authorization", lit "Bearer " ++ interp token)]
         (FormBody formData)) in
  let! data := json response in
  throw_if (negb (ok response))
    (new_Error (or_else (detail data) (lit "Failed to assign shift"))) ;;
  ret data.

Definition getEmployeeShift (employeeId : jsstring) : M world data :=
  let! token := AuthService.getToken in
  let! response :=
    fetch server
      (Request (API_URL ++ lit "/api/admin/employees/" ++ employeeId ++ lit "/shift")
         None [(lit "Authorization", lit "Bearer " ++ interp token)] NoBody) in
  let! data := json response in
  throw_if (negb (ok response)) (new_Error (lit "Failed to fetch employee shift")) ;;
  ret data.

End WithServer.

End ApiService.

(** Every operation of [ApiService], with its arguments. *)
Inductive api_call :=
| CheckIn (latitude longitude imageUri : jsstring)
| CheckOut (latitude longitude imageUri : jsstring)
| GetStatus
| GetMyAttendance (page limit : N)
| GetProfile
| RegisterEmployee (employeeData : ApiService.employee_data) (imageUri : jsstring)
| GetAttendance (date employeeId : option jsstring) (page limit : N)
| GetEmployees (page limit : N)
| GetAnalytics (startDate endDate : option jsstring)
| UpdateEmployeeStatus (employeeId : jsstring) (isActive : bool)
| GetSettings
| UpdateSettings (settings : list (jsstring * jsstring))
| DeleteEmployee (employeeId : jsstring)
| GetShifts
| CreateShift (shiftData : list (jsstring * jsstring))
| UpdateShift (shiftId : jsstring) (shiftData : list (jsstring * jsstring))
| DeleteShift (shiftId : jsstring)
| AssignShift (employeeId shiftId effectiveFrom : jsstring) (effectiveTo : option jsstring)
| GetEmployeeShift (employeeId : jsstring).

Definition call (server : list request -> request -> net_result) (c : api_call)
  : M world data :=
  match c with
  | CheckIn la lo u => ApiService.checkIn server la lo u
  | CheckOut la lo u => ApiService.checkOut server la lo u
  | GetStatus => ApiService.getStatus server
  | GetMyAttendance p l => ApiService.getMyAttendance server p l
  | GetProfile => ApiService.getProfile server
  | RegisterEmployee e u => ApiService.registerEmployee server e u
  | GetAttendance d e p l => ApiService.getAttendance server d e p l
  | GetEmployees p l => ApiService.getEmployees server p l
  | GetAnalytics s e => ApiService.getAnalytics server s e
  | UpdateEmployeeStatus e a => ApiService.updateEmployeeStatus server e a
  | GetSettings => ApiService.getSettings server
  | UpdateSettings s => ApiService.updateSettings server s
  | DeleteEmployee e => ApiService.deleteEmployee server e
  | GetShifts => ApiService.getShifts server
  | CreateShift d => ApiService.createShift server d
  | UpdateShift i d => ApiService.updateShift server i d
  | DeleteShift i => ApiService.deleteShift server i
  | AssignShift e s f t => ApiService.assignShift server e s f t
  | GetEmployeeShift e => ApiService.getEmployeeShift server e
  end.

(** ** Screens

    A screen handler runs over the component's state paired with the
    world. *)

Definition lift {U A} (m : M world A) : M (U * world) A :=
  fun s =>
    match m s.2 with
    | (r, w') => (r, (s.1, w'))
    end.

Definition modify {U} (f : U -> U) : M (U * world) unit :=
  fun s => (Ok tt, (f s.1, s.2)).

(** [Alert.alert(title, message)] *)
Definition Alert_alert {U} (title msg : jsstring) : M (U * world) unit :=
  fun s =>
    (Ok tt, (s.1, World (storage s.2) (sent s.2) (alerts s.2 ++ [(title, msg)]))).

(** [await p] for a promise of the platform that settles with [p]. *)
Definition await {S A} (p : exn + A) : M S A :=
  match p with
  | inl e => throw e
  | inr a => ret a
  end.

(** *** Employee home screen *)

Module EmployeeHomeScreen.

Record state := State {
  status : option data;
  loading : bool;
  capturing : bool;
  processing : bool;
  refreshing : bool
}.

(** [useState] initial values. *)
Definition initial : state := State None true false false false.

Definition setStatus (d : data) : M (state * world) unit :=
  modify (fun s => State (Some d) (loading s) (capturing s) (processing s) (refreshing s)).
Definition setLoading (b : bool) : M (state * world) unit :=
  modify (fun s => State (status s) b (capturing s) (processing s) (refreshing s)).
Definition setCapturing (b : bool) : M (state * world) unit :=
  modify (fun s => State (status s) (loading s) b (processing s) (refreshing s)).
Definition setProcessing (b : bool) : M (state * world) unit :=
  modify (fun s => State (status s) (loading s) (capturing s) b (refreshing s)).
Definition setRefreshing (b : bool) : M (state * world) unit :=
  modify (fun s => State (status s) (loading s) (capturing s) (processing s) b).

Section WithPlatform.

Variable server : list request -> request -> net_result.

(** Settlement of [Location.requestForegroundPermissionsAsync()]: the
    [status] property of its result. *)
Variable requestForegroundPermissionsAsync : exn + jsstring.

(** Settlement of [Location.getCurrentPositionAsync(...)]:
    [coords.latitude] and [coords.longitude], as the text [FormData]
    stores for them. *)
Variable getCurrentPositionAsync : exn + (jsstring * jsstring).

(** The text of the success alert (locale time, validation message and
    confidence), which throws when the reply lacks the properties read. *)
Variable confirmation : jsstring -> data -> exn + jsstring.

Definition loadStatus : M (state * world) unit :=
  try_finally
    (try_catch
       (let! data := lift (ApiService.getStatus server) in
        setStatus data)
       (fun error => Alert_alert (lit "Error") (message error)))
    (setLoading false ;; setRefreshing false).

Definition onRefresh : M (state * world) unit :=
  setRefreshing true ;;
  loadStatus.

(** [loadStatus()] is started without [await]: it cannot throw into the
    handler and touches none of the state the [finally] block writes, so
    it is run to completion where it is called. *)
Definition handleCheckIn (imageUri : jsstring) : M (state * world) unit :=
  setCapturing false ;;
  setProcessing true ;;
  try_finally
    (try_catch
       (let! status := await requestForegroundPermissionsAsync in
        throw_if (negb (bool_decide (status = lit "granted")))
          (new_Error (lit "Location permission is required for attendance")) ;;
        let! location := await getCurrentPositionAsync in
        let! result := lift (ApiService.checkIn server location.1 location.2 imageUri) in
        let! text := await (confirmation (lit "Checked in at ") result) in
        Alert_alert (lit "Success! " ++ [10003]) text ;;
        loadStatus)
       (fun error => Alert_alert (lit "Check-In Failed") (message error)))
    (setProcessing false).

Definition handleCheckOut (imageUri : jsstring) : M (state * world) unit :=
  setCapturing false ;;
  setProcessing true ;;
  try_finally
    (try_catch
       (let! status := await requestForegroundPermissionsAsync in
        throw_if (negb (bool_decide (status = lit "granted")))
          (new_Error (lit "Location permission is required for attendance")) ;;
        let! location := await getCurrentPositionAsync in
        let! result := lift (ApiService.checkOut server location.1 location.2 imageUri) in
        let! text := await (confirmation (lit "Checked out at ") result) in
        Alert_alert (lit "Success! " ++ [10003]) text ;;
        loadStatus)
       (fun error => Alert_alert (lit "Check-Out Failed") (message error)))
    (setProcessing false).

(** [status?.checked_in] *)
Definition status_checked_in (s : state) : bool :=
  match status s with
  | Some d => checked_in d
  | None => false
  end.

(** The [onCapture] prop handed to the camera while [capturing]:
    [status?.checked_in ? handleCheckOut : handleCheckIn]. *)
Definition onCapture (s : state) : jsstring -> M (state * world) unit :=
  if status_checked_in s then handleCheckOut else handleCheckIn.

End WithPlatform.

End EmployeeHomeScreen.

(** *** Employee history screen

    The screen is driven by events.  A call of [loadRecords] runs up to
    its [await]: the call [ApiService.getMyAttendance(page, 30)] it made
    stays pending until the promise settles, and the rest of
    [loadRecords] runs then.  Pending calls may settle in any order. *)

Module EmployeeHistoryScreen.

Record state := State {
  records : option (list attendance);
  pagination : option page_info;
  loading : bool;
  refreshing : bool;
  page : N
}.

(** [useState] initial values. *)
Definition initial : state := State (Some []) None true false 1.

Record screen := Screen {
  ui : state;
  pending : list (N * N);              (* arguments of the unsettled calls, oldest first *)
  shown : list (jsstring * jsstring)   (* Alert.alert(title, message) shown *)
}.

Definition set (f : state -> state) (s : screen) : screen :=
  Screen (f (ui s)) (pending s) (shown s).

Definition setRecords (v : option (list attendance)) : screen -> screen :=
  set (fun u => State v (pagination u) (loading u) (refreshing u) (page u)).
Definition setPagination (v : option page_info) : screen -> screen :=
  set (fun u => State (records u) v (loading u) (refreshing u) (page u)).
Definition setLoading (b : bool) : screen -> screen :=
  set (fun u => State (records u) (pagination u) b (refreshing u) (page u)).
Definition setRefreshing (b : bool) : screen -> screen :=
  set (fun u => State (records u) (pagination u) (loading u) b (page u)).
Definition setPage (n : N) : screen -> screen :=
  set (fun u => State (records u) (pagination u) (loading u) (refreshing u) n).

(** [loadRecords] up to [await ApiService.getMyAttendance(page, 30)], for
    the [page] of the render that created the closure. *)
Definition loadRecords (rendered : state) (s : screen) : screen :=
  Screen (ui s) (pending s ++ [(page rendered, 30)]) (shown s).

(** [loadRecords] from the settlement of the awaited call on. *)
Definition loadRecords_resume (r : outcome data) (s : screen) : screen :=
  let s :=
    match r with
    | Ok data => setPagination (d_pagination data) (setRecords (d_records data) s)
    | Throw error =>
        Screen (ui s) (pending s) (shown s ++ [(lit "Error", message error)])
    end in
  setRefreshing false (setLoading false s).

Definition onRefresh (rendered : state) (s : screen) : screen :=
  let s := setRefreshing true s in
  let s := setPage 1 s in
  loadRecords rendered s.

Definition loadMore (rendered : state) (s : screen) : screen :=
  match pagination rendered with
  | Some pg => if page rendered <? pg_pages pg then setPage (page rendered + 1) s else s
  | None => s
  end.

(** The render that follows a batch of state updates:
    [useEffect(() => { loadRecords(); }, [page])] runs when [page] differs
    from the previous render's. *)
Definition rerender (rendered : state) (s : screen) : screen :=
  if bool_decide (page (ui s) = page rendered) then s else loadRecords (ui s) s.

Inductive event :=
| Mount                                  (* first render: the effect runs *)
| PullToRefresh                          (* RefreshControl.onRefresh *)
| EndReached                             (* FlatList.onEndReached *)
| Settle (i : nat) (r : outcome data).   (* the i-th pending call settles *)

Definition step (s : screen) (e : event) : screen :=
  let rendered := ui s in
  match e with
  | Mount => loadRecords rendered s
  | PullToRefresh => rerender rendered (onRefresh rendered s)
  | EndReached => rerender rendered (loadMore rendered s)
  | Settle i r =>
      match pending s !! i with
      | Some _ =>
          rerender rendered
            (loadRecords_resume r (Screen (ui s) (delete i (pending s)) (shown s)))
      | None => s
      end
  end.

Definition run (s : screen) (es : list event) : screen := foldl step s es.

End EmployeeHistoryScreen.

(** *** Admin registration screen *)

Module AdminRegisterScreen.

Record state := State {
  employeeId : jsstring;
  name : jsstring;
  email : jsstring;
  password : jsstring;
  role : jsstring;
  capturedImage : option jsstring;
  capturing : bool;
  loading : bool;
  showPassword : bool
}.

(** [useState] initial values. *)
Definition initial : state :=
  State [] [] [] [] (lit "employee") None false false false.

Definition setCapturedImage (v : option jsstring) : M (state * world) unit :=
  modify (fun s => State (employeeId s) (name s) (email s) (password s) (role s) v
                     (capturing s) (loading s) (showPassword s)).
Definition setCapturing (b : bool) : M (state * world) unit :=
  modify (fun s => State (employeeId s) (name s) (email s) (password s) (role s)
                     (capturedImage s) b (loading s) (showPassword s)).
Definition setLoading (b : bool) : M (state * world) unit :=
  modify (fun s => State (employeeId s) (name s) (email s) (password s) (role s)
                     (capturedImage s) (capturing s) b (showPassword s)).

Definition handleCapture (uri : jsstring) : M (state * world) unit :=
  setCapturedImage (Some uri) ;;
  setCapturing false.

(** [/[lo-hi]/.test(s)]: some code unit of [s] lies in the range. *)
Definition test_range (lo hi : N) (s : jsstring) : bool :=
  existsb (fun c => (lo <=? c) && (c <=? hi)) s.

Definition validatePassword (pwd : jsstring) : option jsstring :=
  if N.of_nat (length pwd) <? 8 then Some (lit "Password must be at least 8 characters")
  else if negb (test_range 65 90 pwd) then Some (lit "Password must contain uppercase letter")
  else if negb (test_range 97 122 pwd) then Some (lit "Password must contain lowercase letter")
  else if negb (test_range 48 57 pwd) then Some (lit "Password must contain a digit")
  else None.

Section WithServer.

Variable server : list request -> request -> net_result.

(** Past the first guard [capturedImage] is a non-empty string, which is
    what [registerEmployee] receives.  The [onPress] callback of the success
    alert (clearing the form) is a later user action and not part of the
    handler. *)
Definition handleRegister : M (state * world) unit :=
  fun s =>
    let st := s.1 in
    if negb (truthy (Some (employeeId st))) || negb (truthy (Some (name st)))
       || negb (truthy (Some (email st))) || negb (truthy (Some (password st)))
       || negb (truthy (capturedImage st))
    then Alert_alert (lit "Error") (lit "Please fill all fields and capture face image") s
    else
      match validatePassword (password st) with
      | Some passwordError => Alert_alert (lit "Invalid Password") passwordError s
      | None =>
          (setLoading true ;;
           try_finally
             (try_catch
                (lift (ApiService.registerEmployee server
                         (ApiService.EmployeeData (employeeId st) (name st) (email st)
                            (password st) (role st))
                         (default [] (capturedImage st))) ;;
                 Alert_alert (lit "Success") (lit "Employee registered successfully!"))
                (fun error => Alert_alert (lit "Registration Failed") (message error)))
             (setLoading false)) s
      end.

End WithServer.

End AdminRegisterScreen.

(** *** Login screen *)

Module LoginScreen.

Record state := State {
  email : jsstring;
  password : jsstring;
  loading : bool;
  showPassword : bool;
  replaced : list jsstring     (* targets of navigation.replace, oldest first *)
}.

(** [useState] initial values. *)
Definition initial : state := State [] [] false false [].

Definition setLoading (b : bool) : M (state * world) unit :=
  modify (fun s => State (email s) (password s) b (showPassword s) (replaced s)).

(** [navigation.replace(target)] *)
Definition navigation_replace (target : jsstring) : M (state * world) unit :=
  modify (fun s => State (email s) (password s) (loading s) (showPassword s)
                     (replaced s ++ [target])).

Section WithServer.

Variable server : list request -> request -> net_result.
Variable undefined_value : string -> exn.

(** The evaluation of [data.employee.role]: it throws when the reply has
    no [employee], and is [None] when the employee has no [role]. *)
Variable employee_role : data -> exn + option jsstring.

Definition handleLogin : M (state * world) unit :=
  fun s =>
    let st := s.1 in
    if negb (truthy (Some (email st))) || negb (truthy (Some (password st)))
    then Alert_alert (lit "Error") (lit "Please fill in all fields") s
    else
      (setLoading true ;;
       try_finally
         (try_catch
            (let! data :=
               lift (AuthService.login server undefined_value (email st) (password st)) in
             let! role := await (employee_role data) in
             if bool_decide (role = Some (lit "admin"))
             then navigation_replace (lit "AdminTabs")
             else navigation_replace (lit "EmployeeTabs"))
            (fun error => Alert_alert (lit "Login Failed") (message error)))
         (setLoading false)) s.

End WithServer.

End LoginScreen.

(** *** Profile screen *)

Module ProfileScreen.

Record state := State {
  user : option jsvalue;       (* the parsed identity, or [null] *)
  profile : option data;
  loading : bool;
  replaced : list jsstring     (* targets of navigation.replace, oldest first *)
}.

(** [useState] initial values. *)
Definition initial : state := State None None true [].

Definition setUser (v : option jsvalue) : M (state * world) unit :=
  modify (fun s => State v (profile s) (loading s) (replaced s)).
Definition setProfile (d : data) : M (state * world) unit :=
  modify (fun s => State (user s) (Some d) (loading s) (replaced s)).
Definition setLoading (b : bool) : M (state * world) unit :=
  modify (fun s => State (user s) (profile s) b (replaced s)).

(** [navigation.replace(target)] *)
Definition navigation_replace (target : jsstring) : M (state * world) unit :=
  modify (fun s => State (user s) (profile s) (loading s) (replaced s ++ [target])).

Section WithServer.

Variable server : list request -> request -> net_result.
Variable JSON_parse : jsstring -> exn + jsvalue.

(** The evaluation of [userData.role] on what [getUser] returned: it
    throws when [userData] is [null]. *)
Variable user_role : option jsvalue -> exn + option jsstring.

(** The [catch] block only writes to the console. *)
Definition loadProfile : M (state * world) unit :=
  try_finally
    (try_catch
       (let! userData := lift (AuthService.getUser JSON_parse) in
        setUser userData ;;
        let! role := await (user_role userData) in
        if negb (bool_decide (role = Some (lit "admin")))
        then
          let! profileData := lift (ApiService.getProfile server) in
          setProfile profileData
        else ret tt)
       (fun error => ret tt))
    (setLoading false).

End WithServer.

(** [handleLogout] only asks for confirmation. *)
Definition handleLogout : M (state * world) unit :=
  Alert_alert (lit "Logout") (lit "Are you sure you want to logout?").

(** The [onPress] of the alert's Logout button. *)
Definition handleLogout_confirmed : M (state * world) unit :=
  lift AuthService.logout ;;
  navigation_replace (lit "Login").

End ProfileScreen.

(** *** Shift form screen *)

Module ShiftFormScreen.

(** The [shift] route parameter of an edit, through the properties read. *)
Record shift := Shift {
  shift_id : N;
  shift_name : jsstring;
  start_time : jsstring;
  end_time : jsstring;
  check_in_start : jsstring;
  check_in_end : jsstring;
  check_out_start : jsstring;
  check_out_end : jsstring;
  days_of_week : option (list jsstring)
}.

Record state := State {
  shiftName : jsstring;
  startTime : jsstring;
  endTime : jsstring;
  checkInStart : jsstring;
  checkInEnd : jsstring;
  checkOutStart : jsstring;
  checkOutEnd : jsstring;
  selectedDays : list jsstring;
  loading : bool;
  wentBack : bool              (* navigation.goBack() was called *)
}.

(** [useState] initial values, from [route.params?.shift]. *)
Definition initial (shift : option shift) : state :=
  State
    (or_else (shift_name <$> shift) [])
    (or_else (start_time <$> shift) (lit "08:00"))
    (or_else (end_time <$> shift) (lit "16:00"))
    (or_else (check_in_start <$> shift) (lit "07:00"))
    (or_else (check_in_end <$> shift) (lit "08:30"))
    (or_else (check_out_start <$> shift) (lit "15:30"))
    (or_else (check_out_end <$> shift) (lit "17:00"))
    (default [lit "Mon"; lit "Tue"; lit "Wed"; lit "Thu"; lit "Fri"]
       (shift ≫= days_of_week))
    false false.

Definition daysOfWeek : list jsstring :=
  [lit "Mon"; lit "Tue"; lit "Wed"; lit "Thu"; lit "Fri"; lit "Sat"; lit "Sun"].

(** The new value [toggleDay(day)] gives [selectedDays]. *)
Definition toggleDay (day : jsstring) (selectedDays : list jsstring) : list jsstring :=
  if bool_decide (day ∈ selectedDays)
  then filter (fun d => d ≠ day) selectedDays
  else selectedDays ++ [day].

(** [l.join(sep)] *)
Fixpoint join (sep : jsstring) (l : list jsstring) : jsstring :=
  match l with
  | [] => []
  | [x] => x
  | x :: rest => x ++ sep ++ join sep rest
  end.

Definition setLoading (b : bool) : M (state * world) unit :=
  modify (fun s => State (shiftName s) (startTime s) (endTime s) (checkInStart s)
                     (checkInEnd s) (checkOutStart s) (checkOutEnd s) (selectedDays s)
                     b (wentBack s)).

(** [navigation.goBack()] *)
Definition navigation_goBack : M (state * world) unit :=
  modify (fun s => State (shiftName s) (startTime s) (endTime s) (checkInStart s)
                     (checkInEnd s) (checkOutStart s) (checkOutEnd s) (selectedDays s)
                     (loading s) true).

Section WithServer.

Variable server : list request -> request -> net_result.

(** [shift] is the route parameter: [isEdit] is [!!shift]. *)
Definition handleSave (shift : option shift) : M (state * world) unit :=
  fun s =>
    let st := s.1 in
    if negb (truthy (Some (shiftName st))) || bool_decide (length (selectedDays st) = 0%nat)
    then Alert_alert (lit "Error") (lit "Please fill all required fields") s
    else
      (setLoading true ;;
       try_finally
         (try_catch
            (let shiftData :=
               [(lit "shift_name", shiftName st);
                (lit "start_time", startTime st);
                (lit "end_time", endTime st);
                (lit "check_in_start", checkInStart st);
                (lit "check_in_end", checkInEnd st);
                (lit "check_out_start", checkOutStart st);
                (lit "check_out_end", checkOutEnd st);
                (lit "days_of_week", join (lit ",") (selectedDays st))] in
             match shift with
             | Some shift =>
                 lift (ApiService.updateShift server (interp_num (shift_id shift)) shiftData) ;;
                 Alert_alert (lit "Success") (lit "Shift updated successfully")
             | None =>
                 lift (ApiService.createShift server shiftData) ;;
                 Alert_alert (lit "Success") (lit "Shift created successfully")
             end ;;
             navigation_goBack)
            (fun error => Alert_alert (lit "Error") (message error)))
         (setLoading false)) s.

End WithServer.

End ShiftFormScreen.

(** *** Assign shift screen *)

Module AssignShiftScreen.

(** The state the handler reads; the lists filled by [loadData] are left
    out. *)
Record state := State {
  selectedShift : option N;    (* a shift id, or [null] *)
  effectiveFrom : jsstring;
  effectiveTo : jsstring;
  loading : bool;
  saving : bool
}.

Definition setSaving (b : bool) : M (state * world) unit :=
  modify (fun s => State (selectedShift s) (effectiveFrom s) (effectiveTo s) (loading s) b).

(** [!selectedShift] for a number or [null]. *)
Definition no_shift (v : option N) : bool :=
  match v with
  | Some (N.pos _) => false
  | _ => true
  end.

Section WithServer.

Variable server : list request -> request -> net_result.

(** [employee_id] is [employee.employee_id] of the route parameter.  The
    [onPress] of the success alert (going back) is a later user action. *)
Definition handleAssign (employee_id : jsstring) : M (state * world) unit :=
  fun s =>
    let st := s.1 in
    if no_shift (selectedShift st)
    then Alert_alert (lit "Error") (lit "Please select a shift") s
    else
      (setSaving true ;;
       try_finally
         (try_catch
            (lift (ApiService.assignShift server employee_id
                     (interp_num (default 0 (selectedShift st)))
                     (effectiveFrom st)
                     (if truthy (Some (effectiveTo st)) then Some (effectiveTo st) else None)) ;;
             Alert_alert (lit "Success") (lit "Shift assigned successfully"))
            (fun error => Alert_alert (lit "Error") (message error)))
         (setSaving false)) s.

End WithServer.

End AssignShiftScreen.

(** *** Admin employees screen: the confirmed actions

    [handleDelete] and [handleToggleStatus] ask for confirmation; the work
    is in the [onPress] of the confirming button.  As on the home screen,
    the reload started without [await] is run where it is called. *)

Module AdminEmployeesScreen.

(** An item of the list, through the properties the handlers read. *)
Record employee := Employee {
  emp_id : jsstring;           (* employee.employee_id *)
  emp_name : jsstring;
  is_active : bool
}.

Record state := State {
  employees : option (list employee);
  pagination : option page_info;
  loading : bool;
  refreshing : bool;
  page : N
}.

(** [useState] initial values. *)
Definition initial : state := State (Some []) None true false 1.

Definition setEmployees (v : option (list employee)) : M (state * world) unit :=
  modify (fun s => State v (pagination s) (loading s) (refreshing s) (page s)).
Definition setPagination (v : option page_info) : M (state * world) unit :=
  modify (fun s => State (employees s) v (loading s) (refreshing s) (page s)).
Definition setLoading (b : bool) : M (state * world) unit :=
  modify (fun s => State (employees s) (pagination s) b (refreshing s) (page s)).
Definition setRefreshing (b : bool) : M (state * world) unit :=
  modify (fun s => State (employees s) (pagination s) (loading s) b (page s)).

Section WithServer.

Variable server : list request -> request -> net_result.

(** The [employees] property of a reply. *)
Variable data_employees : data -> option (list employee).

Definition loadEmployees : M (state * world) unit :=
  fun s =>
    try_finally
      (try_catch
         (let! data := lift (ApiService.getEmployees server (page s.1) 50) in
          setEmployees (data_employees data) ;;
          setPagination (d_pagination data))
         (fun error => Alert_alert (lit "Error") (message error)))
      (setLoading false ;; setRefreshing false) s.

Definition handleDelete (employee : employee) : M (state * world) unit :=
  Alert_alert (lit "Delete Employee")
    (lit "Are you sure you want to permanently delete " ++ emp_name employee
       ++ lit "? This action cannot be undone.").

Definition handleDelete_confirmed (employee : employee) : M (state * world) unit :=
  try_catch
    (lift (ApiService.deleteEmployee server (emp_id employee)) ;;
     Alert_alert (lit "Success") (lit "Employee deleted successfully") ;;
     loadEmployees)
    (fun error => Alert_alert (lit "Error") (message error)).

Definition handleToggleStatus (employee : employee) : M (state * world) unit :=
  Alert_alert
    ((if is_active employee then lit "Deactivate" else lit "Activate") ++ lit " Employee")
    (lit "Are you sure you want to "
       ++ (if is_active employee then lit "deactivate" else lit "activate")
       ++ lit " " ++ emp_name employee ++ lit "?").

Definition handleToggleStatus_confirmed (employee : employee) : M (state * world) unit :=
  try_catch
    (lift (ApiService.updateEmployeeStatus server (emp_id employee)
             (negb (is_active employee))) ;;
     Alert_alert (lit "Success")
       (lit "Employee "
          ++ (if is_active employee then lit "deactivated" else lit "activated")
          ++ lit " successfully") ;;
     loadEmployees)
    (fun error => Alert_alert (lit "Error") (message error)).

End WithServer.

End AdminEmployeesScreen.

(** *** Admin attendance screen

    Driven by events like the employee history screen: calls of
    [ApiService.getAttendance] stay pending until they settle. *)

Module AdminAttendanceScreen.

Record state := State {
  records : option (list attendance);
  pagination : option page_info;
  loading : bool;
  refreshing : bool;
  selectedDate : jsstring;
  page : N;
  filterModalVisible : bool;
  employeeIdFilter : jsstring
}.

(** [useState] initial values; [today] is
    [new Date().toISOString().split('T')[0]]. *)
Definition initial (today : jsstring) : state :=
  State (Some []) None true false today 1 false [].

(** The arguments of a call [getAttendance(date, employeeId, page, limit)]. *)
Record query := Query {
  q_date : option jsstring;
  q_employee : option jsstring;
  q_page : N;
  q_limit : N
}.

Record screen := Screen {
  ui : state;
  pending : list query;                (* the unsettled calls, oldest first *)
  shown : list (jsstring * jsstring)   (* Alert.alert(title, message) shown *)
}.

Definition set (f : state -> state) (s : screen) : screen :=
  Screen (f (ui s)) (pending s) (shown s).

Definition setRecords (v : option (list attendance)) : screen -> screen :=
  set (fun u => State v (pagination u) (loading u) (refreshing u) (selectedDate u)
                  (page u) (filterModalVisible u) (employeeIdFilter u)).
Definition setPagination (v : option page_info) : screen -> screen :=
  set (fun u => State (records u) v (loading u) (refreshing u) (selectedDate u)
                  (page u) (filterModalVisible u) (employeeIdFilter u)).
Definition setLoading (b : bool) : screen -> screen :=
  set (fun u => State (records u) (pagination u) b (refreshing u) (selectedDate u)
                  (page u) (filterModalVisible u) (employeeIdFilter u)).
Definition setRefreshing (b : bool) : screen -> screen :=
  set (fun u => State (records u) (pagination u) (loading u) b (selectedDate u)
                  (page u) (filterModalVisible u) (employeeIdFilter u)).
Definition setSelectedDate (d : jsstring) : screen -> screen :=
  set (fun u => State (records u) (pagination u) (loading u) (refreshing u) d
                  (page u) (filterModalVisible u) (employeeIdFilter u)).
Definition setPage (n : N) : screen -> screen :=
  set (fun u => State (records u) (pagination u) (loading u) (refreshing u) (selectedDate u)
                  n (filterModalVisible u) (employeeIdFilter u)).
Definition setFilterModalVisible (b : bool) : screen -> screen :=
  set (fun u => State (records u) (pagination u) (loading u) (refreshing u) (selectedDate u)
                  (page u) b (employeeIdFilter u)).
Definition setEmployeeIdFilter (v : jsstring) : screen -> screen :=
  set (fun u => State (records u) (pagination u) (loading u) (refreshing u) (selectedDate u)
                  (page u) (filterModalVisible u) v).

(** [loadRecords] up to its [await], for the render that created the
    closure: the call carries that render's date, filter and page. *)
Definition loadRecords (rendered : state) (s : screen) : screen :=
  let s := setLoading true s in
  Screen (ui s)
    (pending s ++
       [Query (Some (selectedDate rendered))
          (if truthy (Some (employeeIdFilter rendered))
           then Some (employeeIdFilter rendered) else None)
          (page rendered) 50])
    (shown s).

(** [loadRecords] from the settlement of the awaited call on. *)
Definition loadRecords_resume (r : outcome data) (s : screen) : screen :=
  let s :=
    match r with
    | Ok data => setPagination (d_pagination data) (setRecords (d_records data) s)
    | Throw error =>
        Screen (ui s) (pending s) (shown s ++ [(lit "Error", message error)])
    end in
  setRefreshing false (setLoading false s).

Definition onRefresh (rendered : state) (s : screen) : screen :=
  let s := setRefreshing true s in
  let s := setPage 1 s in
  loadRecords rendered s.

Definition applyFilter (rendered : state) (s : screen) : screen :=
  let s := setPage 1 s in
  let s := setFilterModalVisible false s in
  loadRecords rendered s.

Definition clearFilter (today : jsstring) (rendered : state) (s : screen) : screen :=
  let s := setEmployeeIdFilter [] s in
  let s := setSelectedDate today s in
  let s := setPage 1 s in
  let s := setFilterModalVisible false s in
  loadRecords rendered s.

(** [onDateChange] of the date button in the header. *)
Definition onDateChange (date : jsstring) (s : screen) : screen :=
  let s := setSelectedDate date s in
  setPage 1 s.

(** [onEndReached] of the list. *)
Definition onEndReached (rendered : state) (s : screen) : screen :=
  match pagination rendered with
  | Some pg => if page rendered <? pg_pages pg then setPage (page rendered + 1) s else s
  | None => s
  end.

(** The render that follows a batch of state updates:
    [useEffect(() => { loadRecords(); }, [selectedDate, page])] runs when
    either dependency differs from the previous render's. *)
Definition rerender (rendered : state) (s : screen) : screen :=
  if bool_decide (selectedDate (ui s) = selectedDate rendered)
     && bool_decide (page (ui s) = page rendered)
  then s
  else loadRecords (ui s) s.

Inductive event :=
| Mount                                  (* first render: the effect runs *)
| PullToRefresh                          (* RefreshControl.onRefresh *)
| EndReached                             (* FlatList.onEndReached *)
| HeaderDate (date : jsstring)           (* the header's date button *)
| OpenFilter                             (* the filter button *)
| CloseFilter                            (* the modal's close button *)
| TypeFilter (text : jsstring)           (* the modal's employee id input *)
| ModalDate (date : jsstring)            (* the modal's date button *)
| ApplyFilter                            (* the modal's Apply button *)
| ClearFilter (today : jsstring)         (* the modal's Clear Filters button *)
| Settle (i : nat) (r : outcome data).   (* the i-th pending call settles *)

Definition step (s : screen) (e : event) : screen :=
  let rendered := ui s in
  match e with
  | Mount => loadRecords rendered s
  | PullToRefresh => rerender rendered (onRefresh rendered s)
  | EndReached => rerender rendered (onEndReached rendered s)
  | HeaderDate date => rerender rendered (onDateChange date s)
  | OpenFilter => rerender rendered (setFilterModalVisible true s)
  | CloseFilter => rerender rendered (setFilterModalVisible false s)
  | TypeFilter text => rerender rendered (setEmployeeIdFilter text s)
  | ModalDate date => rerender rendered (setSelectedDate date s)
  | ApplyFilter => rerender rendered (applyFilter rendered s)
  | ClearFilter today => rerender rendered (clearFilter today rendered s)
  | Settle i r =>
      match pending s !! i with
      | Some _ =>
          rerender rendered
            (loadRecords_resume r (Screen (ui s) (delete i (pending s)) (shown s)))
      | None => s
      end
  end.

Definition run (s : screen) (es : list event) : screen := foldl step s es.

End AdminAttendanceScreen.

(** * Vocabulary of the statements *)

(** ** Fixtures *)

Definition empty_reply : data := Data None None None None None false false.

(** A backend that accepts everything. *)
Definition accept_all : list request -> request -> net_result :=
  fun _ _ => Reply (Response 200 (inr empty_reply)).

(** A backend that answers 401 to everything. *)
Definition reject_all : list request -> request -> net_result :=
  fun _ _ => Reply (Response 401 (inr empty_reply)).

Definition no_session : world := World ∅ [] [].

(** A login reply with a token and an employee, one with a token only, and
    the backends that answer 200 with them. *)
Definition session_reply : data :=
  Data None (Some (lit "abc")) (Some (lit "{}")) None None false false.

Definition token_only_reply : data :=
  Data None (Some (lit "abc")) None None None false false.

Definition sign_in : list request -> request -> net_result :=
  fun _ _ => Reply (Response 200 (inr session_reply)).

Definition sign_in_token_only : list request -> request -> net_result :=
  fun _ _ => Reply (Response 200 (inr token_only_reply)).

(** A rejection of [setItem] for an [undefined] value. *)
Definition rejects_undefined : string -> exn :=
  fun k => Exn Error (lit "undefined value for " ++ lit k).

Definition logged_in : world :=
  World (<["user" := lit "{}"]> (<["token" := lit "abc"]> ∅)) [] [].

(** ** Requests and form fields *)

(** The captured image an operation submits, if it submits one. *)
Definition carries_image (c : api_call) : option jsstring :=
  match c with
  | CheckIn _ _ u | CheckOut _ _ u | RegisterEmployee _ u => Some u
  | _ => None
  end.

(** [formData.getAll(k)] *)
Definition getAll (k : jsstring) (fd : formdata) : list form_value :=
  snd <$> List.filter (fun kv => bool_decide (kv.1 = k)) fd.

Definition file_parts (fd : formdata) : formdata :=
  List.filter (fun kv => match kv.2 with File _ _ _ => true | Text _ => false end) fd.

(** The character classes of the password rules, as code units. *)
Definition uppercase (c : N) : Prop := 65 <= c <= 90.    (* 'A' .. 'Z' *)
Definition lowercase (c : N) : Prop := 97 <= c <= 122.   (* 'a' .. 'z' *)
Definition digit (c : N) : Prop := 48 <= c <= 57.        (* '0' .. '9' *)

(** The request [checkIn] / [checkOut] builds for an endpoint path. *)
Definition image_request (path : jsstring) (token : option jsstring)
    (latitude longitude imageUri : jsstring) : request :=
  Request (API_URL ++ path) (Some (lit "POST"))
    [(lit "Authorization", lit "Bearer " ++ interp token)]
    (FormBody
       [(lit "latitude", Text latitude);
        (lit "longitude", Text longitude);
        if startsWith imageUri (lit "data:image/")
        then (lit "face_image_base64", Text imageUri)
        else (lit "face_image", File imageUri (lit "image/jpeg") (lit "face.jpg"))]).

(** The request [getStatus] builds. *)
Definition status_request (token : option jsstring) : request :=
  Request (API_URL ++ lit "/api/employee/status") None
    [(lit "Authorization", lit "Bearer " ++ interp token)] NoBody.

(** What a capture handler leaves in the list of sent requests: nothing
    unless permission is granted and a position obtained, otherwise the
    submission to [path] followed at most by the status refresh. *)
Definition capture_requests (permission : exn + jsstring)
    (position : exn + (jsstring * jsstring)) (path imageUri : jsstring) (w : world)
    (new : list request) : Prop :=
  match permission, position with
  | inr p, inr loc =>
      if bool_decide (p = lit "granted")
      then ∃ rest,
          new = image_request path (storage w !! "token") loc.1 loc.2 imageUri :: rest
          ∧ (rest = [] ∨ rest = [status_request (storage w !! "token")])
      else new = []
  | _, _ => new = []
  end.

(** ** Fixtures for the history screen *)

Definition day1 : attendance := Attendance 1 (lit "2025-01-01") (lit "completed").
Definition day2 : attendance := Attendance 2 (lit "2025-01-02") (lit "completed").

(** Page 1 and page 2 of a two-page history, one record each. *)
Definition page1 : data :=
  Data None None None (Some [day2]) (Some (PageInfo 1 2 2)) false false.
Definition page2 : data :=
  Data None None None (Some [day1]) (Some (PageInfo 2 2 2)) false false.

(** The screen showing page 1, respectively page 2, with nothing pending. *)
Definition showing_page1 : EmployeeHistoryScreen.screen :=
  EmployeeHistoryScreen.Screen
    (EmployeeHistoryScreen.State (Some [day2]) (Some (PageInfo 1 2 2)) false false 1)
    [] [].
Definition showing_page2 : EmployeeHistoryScreen.screen :=
  EmployeeHistoryScreen.Screen
    (EmployeeHistoryScreen.State (Some [day1]) (Some (PageInfo 2 2 2)) false false 2)
    [] [].

(** ** Errors of the API calls *)

(** What a call throws when [e] is thrown inside it: [registerEmployee]
    catches and wraps, the others let it through. *)
Definition rethrown (c : api_call) (e : exn) : exn :=
  match c with
  | RegisterEmployee _ _ => new_Error (lit "Failed to register employee: " ++ message e)
  | _ => e
  end.

(** The calls whose failure message is taken from the reply's [detail]. *)
Definition surfaces_detail (c : api_call) : bool :=
  match c with
  | CheckIn _ _ _ | CheckOut _ _ _ | RegisterEmployee _ _ | UpdateSettings _
  | DeleteEmployee _ | CreateShift _ | UpdateShift _ _ | DeleteShift _
  | AssignShift _ _ _ _ => true
  | _ => false
  end.



(** ** Well-formed history screens *)

(** The cursor is a page number and every pending call asks for a page
    number with the screen's page size. *)
Definition history_ok (s : EmployeeHistoryScreen.screen) : Prop :=
  1 <= EmployeeHistoryScreen.page (EmployeeHistoryScreen.ui s)
  ∧ Forall (fun c => 1 <= c.1 ∧ c.2 = 30) (EmployeeHistoryScreen.pending s).

(** ** Complete forms *)

(** The registration form is complete: every text field and the captured
    image are non-empty. *)
Definition form_filled (st : AdminRegisterScreen.state) (uri : jsstring) : Prop :=
  AdminRegisterScreen.employeeId st ≠ [] ∧ AdminRegisterScreen.name st ≠ []
  ∧ AdminRegisterScreen.email st ≠ [] ∧ AdminRegisterScreen.password st ≠ []
  ∧ uri ≠ [] ∧ AdminRegisterScreen.capturedImage st = Some uri.

(** The request [registerEmployee] builds. *)
Definition register_request (token : option jsstring)
    (employeeData : ApiService.employee_data) (imageUri : jsstring) : request :=
  Request (API_URL ++ lit "/api/admin/register-employee") (Some (lit "POST"))
    [(lit "Authorization", lit "Bearer " ++ interp token)]
    (FormBody
       [(lit "employee_id", Text (ApiService.employee_id employeeData));
        (lit "name", Text (ApiService.emp_name employeeData));
        (lit "email", Text (ApiService.emp_email employeeData));
        (lit "password", Text (ApiService.emp_password employeeData));
        (lit "role", Text (ApiService.emp_role employeeData));
        if startsWith imageUri (lit "data:image/")
        then (lit "face_image_base64", Text imageUri)
        else (lit "face_image", File imageUri (lit "image/jpeg") (lit "face.jpg"))]).

(** ** Requests of the admin screens *)

(** The fields [handleSave] collects from the shift form. *)
Definition shift_form_fields (st : ShiftFormScreen.state) : list (jsstring * jsstring) :=
  [(lit "shift_name", ShiftFormScreen.shiftName st);
   (lit "start_time", ShiftFormScreen.startTime st);
   (lit "end_time", ShiftFormScreen.endTime st);
   (lit "check_in_start", ShiftFormScreen.checkInStart st);
   (lit "check_in_end", ShiftFormScreen.checkInEnd st);
   (lit "check_out_start", ShiftFormScreen.checkOutStart st);
   (lit "check_out_end", ShiftFormScreen.checkOutEnd st);
   (lit "days_of_week", ShiftFormScreen.join (lit ",") (ShiftFormScreen.selectedDays st))].

(** The API call saving the form makes: an update of the edited shift, or
    a creation. *)
Definition save_call (shift : option ShiftFormScreen.shift) (st : ShiftFormScreen.state)
  : api_call :=
  match shift with
  | Some sh => UpdateShift (interp_num (ShiftFormScreen.shift_id sh)) (shift_form_fields st)
  | None => CreateShift (shift_form_fields st)
  end.

(** The request saving the form sends. *)
Definition save_request (token : option jsstring) (shift : option ShiftFormScreen.shift)
    (st : ShiftFormScreen.state) : request :=
  Request
    (match shift with
     | Some sh =>
         API_URL ++ lit "/api/admin/shifts/" ++ interp_num (ShiftFormScreen.shift_id sh)
     | None => API_URL ++ lit "/api/admin/shifts"
     end)
    (Some (match shift with Some _ => lit "PUT" | None => lit "POST" end))
    [(lit "Authorization", lit "Bearer " ++ interp token)]
    (FormBody ((fun kv => (kv.1, Text kv.2)) <$> shift_form_fields st)).

(** The request assigning shift [shiftId] to an employee sends. *)
Definition assign_request (token : option jsstring) (employee_id : jsstring) (shiftId : N)
    (effectiveFrom effectiveTo : jsstring) : request :=
  Request (API_URL ++ lit "/api/admin/employees/" ++ employee_id ++ lit "/assign-shift")
    (Some (lit "POST"))
    [(lit "Authorization", lit "Bearer " ++ interp token)]
    (FormBody
       ([(lit "shift_id", Text (interp_num shiftId));
         (lit "effective_from", Text effectiveFrom)]
        ++ match effectiveTo with
           | [] => []
           | _ :: _ => [(lit "effective_to", Text effectiveTo)]
           end)).

(** The requests of the employee list: the status change, the deletion
    and the reload of a page. *)
Definition status_change_request (token : option jsstring) (employee_id : jsstring)
    (isActive : bool) : request :=
  Request
    (API_URL ++ lit "/api/admin/employees/" ++ employee_id ++ lit "/status?is_active="
       ++ (if isActive then lit "true" else lit "false"))
    (Some (lit "PATCH"))
    [(lit "Authorization", lit "Bearer " ++ interp token)] NoBody.

Definition deletion_request (token : option jsstring) (employee_id : jsstring) : request :=
  Request (API_URL ++ lit "/api/admin/employees/" ++ employee_id) (Some (lit "DELETE"))
    [(lit "Authorization", lit "Bearer " ++ interp token)] NoBody.

Definition employees_request (token : option jsstring) (page : N) : request :=
  Request
    (API_URL ++ lit "/api/admin/employees?page=" ++ interp_num page ++ lit "&limit=50")
    None [(lit "Authorization", lit "Bearer " ++ interp token)] NoBody.

(** ** Queries of the attendance screen *)

(** The employee argument the attendance screen passes for a filter text:
    [employeeIdFilter || null]. *)
Definition filter_argument (text : jsstring) : option jsstring :=
  match text with
  | [] => None
  | _ :: _ => Some text
  end.

(** The query a render of the attendance screen would make. *)
Definition query_of (u : AdminAttendanceScreen.state) : AdminAttendanceScreen.query :=
  AdminAttendanceScreen.Query (Some (AdminAttendanceScreen.selectedDate u))
    (filter_argument (AdminAttendanceScreen.employeeIdFilter u))
    (AdminAttendanceScreen.page u) 50.

(** The cursor is a page number and every pending query names a date and
    asks for a page number with the screen's page size. *)
Definition attendance_ok (s : AdminAttendanceScreen.screen) : Prop :=
  1 <= AdminAttendanceScreen.page (AdminAttendanceScreen.ui s)
  ∧ Forall (fun q => is_Some (AdminAttendanceScreen.q_date q)
                     ∧ 1 <= AdminAttendanceScreen.q_page q
                     ∧ AdminAttendanceScreen.q_limit q = 50)
      (AdminAttendanceScreen.pending s).

(** * Properties *)

(** ** What every API call does *)

Ltac unfold_api :=
  unfold call, ApiService.checkIn, ApiService.checkOut, ApiService.getStatus,
    ApiService.getMyAttendance, ApiService.getProfile, ApiService.registerEmployee,
    ApiService.getAttendance, ApiService.getEmployees, ApiService.getAnalytics,
    ApiService.updateEmployeeStatus, ApiService.getSettings, ApiService.updateSettings,
    ApiService.deleteEmployee, ApiService.getShifts, ApiService.createShift,
    ApiService.updateShift, ApiService.deleteShift, ApiService.assignShift,
    ApiService.getEmployeeShift,
    AuthService.getToken, AsyncStorage.getItem, fetch, json,
    try_catch, bind, throw_if, ret, throw.

(** Name the request the call hands to [fetch] and split on its settlement. *)
Ltac on_reply server w :=
  match goal with
  | |- context [server (sent w) ?r] =>
      exists r; destruct (server (sent w) r) as [?e|?rsp] eqn:?Hreply
  end.

Ltac crunch :=
  repeat match goal with
    | |- context [rsp_json ?r] => destruct (rsp_json r) eqn:?
    | |- context [negb (ok ?r)] => destruct (negb (ok r)) eqn:?
    end.

(** An API call issues exactly one request, with the bearer header built
    from whatever [getToken] returned, touches nothing else, and returns
    the body of a 2xx JSON reply. *)
Lemma call_sends_one server c w :
  ∃ r, snd (call server c w) = World (storage w) (sent w ++ [r]) (alerts w)
     ∧ headers r !! 0%nat
         = Some (lit "Authorization", lit "Bearer " ++ interp (storage w !! "token"))
     ∧ ∀ rsp d, server (sent w) r = Reply rsp → rsp_json rsp = inr d → ok rsp = true →
         fst (call server c w) = Ok d.
Proof.
  destruct c; unfold_api; cbv beta iota zeta; on_reply server w;
    (split; [ crunch; reflexivity | split; [reflexivity | ] ]).
  all: intros rsp' d [= <-] Hj Hok; rewrite Hj, Hok; reflexivity.
Qed.

(** ** Missing token *)

(** C1, as stated, fails: with no token stored, [checkIn] sends its request
    and returns the reply instead of failing before the network. *)
Lemma checkIn_without_token_reaches_network :
  storage no_session !! "token" = None
  ∧ fst (ApiService.checkIn accept_all (lit "6.5") (lit "3.4") (lit "file:///face.jpg")
           no_session) = Ok empty_reply
  ∧ length (sent (snd (ApiService.checkIn accept_all (lit "6.5") (lit "3.4")
                         (lit "file:///face.jpg") no_session))) = 1%nat.
Proof. repeat split; vm_compute; reflexivity. Qed.

(** C1, amended: no API operation checks for a stored token.  With no token
    in the session store the operation still sends exactly one request,
    whose Authorization header is [Bearer null], and it returns the body of
    any 2xx JSON reply: there is no local auth-required failure. *)
Theorem no_token_request_still_sent server c w :
  storage w !! "token" = None →
  ∃ r, sent (snd (call server c w)) = sent w ++ [r]
     ∧ headers r !! 0%nat = Some (lit "Authorization", lit "Bearer null")
     ∧ ∀ rsp d, server (sent w) r = Reply rsp → rsp_json rsp = inr d → ok rsp = true →
         fst (call server c w) = Ok d.
Proof.
  intros Htok. destruct (call_sends_one server c w) as (r & Hw & Hh & Hok).
  exists r. rewrite Hw, Hh, Htok. auto.
Qed.

Lemma no_token_request_still_sent_witness :
  ∃ r, sent (snd (call accept_all GetStatus no_session)) = sent no_session ++ [r]
     ∧ headers r !! 0%nat = Some (lit "Authorization", lit "Bearer null")
     ∧ ∀ rsp d, accept_all (sent no_session) r = Reply rsp → rsp_json rsp = inr d →
         ok rsp = true → fst (call accept_all GetStatus no_session) = Ok d.
Proof. apply (no_token_request_still_sent accept_all GetStatus no_session). reflexivity. Defined.

(** ** The Authorization header *)

(** C5, as stated, fails: with no token stored the header is not omitted,
    [getStatus] sends [Authorization: Bearer null]. *)
Lemma getStatus_sends_bearer_null :
  storage no_session !! "token" = None
  ∧ headers <$> sent (snd (ApiService.getStatus accept_all no_session))
    = [[(lit "Authorization", lit "Bearer null")]].
Proof. split; vm_compute; reflexivity. Qed.

(** C5, amended: every request built by the API service carries an
    Authorization header; its value is [Bearer <token>] when a token is
    stored and the literal [Bearer null] when none is.  The header is never
    omitted there.  Only the login request, which reads no token, has no
    Authorization header. *)
Theorem authorization_header_always_set :
  (∀ server c w,
     ∃ r, sent (snd (call server c w)) = sent w ++ [r]
        ∧ headers r !! 0%nat
          = Some (lit "Authorization",
                  lit "Bearer " ++ match storage w !! "token" with
                                   | Some token => token
                                   | None => lit "null"
                                   end))
  ∧ (∀ server undefined_value email password w,
       ∃ r, sent (snd (AuthService.login server undefined_value email password w))
            = sent w ++ [r]
          ∧ headers r = [(lit "Content-Type", lit "application/json")]).
Proof.
  split.
  - intros server c w. destruct (call_sends_one server c w) as (r & Hw & Hh & _).
    exists r. rewrite Hw, Hh. split; reflexivity.
  - intros server undefined_value email password w.
    unfold AuthService.login, AsyncStorage.setItem, fetch, json, bind, throw_if, ret, throw.
    on_reply server w; (split; [crunch | reflexivity]); try reflexivity.
    all: destruct (d_token _); [destruct (d_employee _) | ]; reflexivity.
Qed.

(** ** HTTP 401 *)




(** ** Image payload *)

(** C2: a submission that carries a captured image sends a multipart body
    with exactly one representation of it.  A reference starting with
    [data:image/] goes in the text field [face_image_base64] and the body
    has no file part; any other reference goes in the file part
    [face_image] (name [face.jpg], type [image/jpeg]) and the body has no
    [face_image_base64] field. *)
Theorem image_sent_in_exactly_one_form server c u w :
  carries_image c = Some u →
  ∃ r fd,
    sent (snd (call server c w)) = sent w ++ [r] ∧ req_body r = FormBody fd ∧
    if startsWith u (lit "data:image/")
    then getAll (lit "face_image_base64") fd = [Text u]
         ∧ getAll (lit "face_image") fd = [] ∧ file_parts fd = []
    else getAll (lit "face_image") fd = [File u (lit "image/jpeg") (lit "face.jpg")]
         ∧ getAll (lit "face_image_base64") fd = []
         ∧ file_parts fd = [(lit "face_image", File u (lit "image/jpeg") (lit "face.jpg"))].
Proof.
  intros Hc. destruct c; simplify_eq/=; unfold_api; cbv beta iota zeta;
    destruct (startsWith u (lit "data:image/")); on_reply server w;
    eexists; (split; [crunch; reflexivity | split; [reflexivity | ] ]).
  all: repeat split; reflexivity.
Qed.

Lemma image_sent_in_exactly_one_form_witness :
  ∃ r fd,
    sent (snd (call accept_all
                 (CheckIn (lit "6.5") (lit "3.4") (lit "data:image/jpeg;base64,AAAA"))
                 logged_in)) = sent logged_in ++ [r]
    ∧ req_body r = FormBody fd
    ∧ if startsWith (lit "data:image/jpeg;base64,AAAA") (lit "data:image/")
      then getAll (lit "face_image_base64") fd = [Text (lit "data:image/jpeg;base64,AAAA")]
           ∧ getAll (lit "face_image") fd = [] ∧ file_parts fd = []
      else getAll (lit "face_image") fd
           = [File (lit "data:image/jpeg;base64,AAAA") (lit "image/jpeg") (lit "face.jpg")]
           ∧ getAll (lit "face_image_base64") fd = []
           ∧ file_parts fd
             = [(lit "face_image",
                 File (lit "data:image/jpeg;base64,AAAA") (lit "image/jpeg") (lit "face.jpg"))].
Proof.
  apply (image_sent_in_exactly_one_form accept_all
           (CheckIn (lit "6.5") (lit "3.4") (lit "data:image/jpeg;base64,AAAA"))
           (lit "data:image/jpeg;base64,AAAA") logged_in).
  reflexivity.
Defined.

(** Whatever the image reference is, the request goes out with it: the
    image entry is the last one appended to the body. *)
Lemma image_call_sends_uri server c u w :
  carries_image c = Some u →
  ∃ r fd,
    sent (snd (call server c w)) = sent w ++ [r] ∧ req_body r = FormBody fd ∧
    last fd = Some (if startsWith u (lit "data:image/")
                    then (lit "face_image_base64", Text u)
                    else (lit "face_image", File u (lit "image/jpeg") (lit "face.jpg"))).
Proof.
  intros Hc. destruct c; simplify_eq/=; unfold_api; cbv beta iota zeta;
    destruct (startsWith u (lit "data:image/")); on_reply server w;
    eexists; (split; [crunch; reflexivity | split; reflexivity ]).
Qed.

(** ** Password validation *)

Section Password.

Import AdminRegisterScreen.

Lemma test_range_spec lo hi s :
  test_range lo hi s = true ↔ ∃ c, c ∈ s ∧ lo <= c <= hi.
Proof.
  unfold test_range. rewrite existsb_exists. split.
  - intros (c & Hin & Hc). exists c. rewrite list_elem_of_In.
    apply andb_true_iff in Hc as [Hlo%N.leb_le Hhi%N.leb_le]. done.
  - intros (c & Hin & Hlo & Hhi). exists c. rewrite <- list_elem_of_In.
    split; [done | ]. apply andb_true_iff. split; by apply N.leb_le.
Qed.

Lemma test_range_false lo hi s :
  test_range lo hi s = false ↔ ¬ ∃ c, c ∈ s ∧ lo <= c <= hi.
Proof. rewrite <- test_range_spec. destruct (test_range lo hi s); naive_solver. Qed.

(** C7: the registration form accepts a password ([validatePassword] returns
    [null]) exactly when it has at least 8 characters and contains an
    uppercase letter, a lowercase letter and a digit.  It rejects "abc",
    "alllowercase1", "ALLUPPERCASE1" and "NoDigitsHere", each for the stated
    reason, and accepts "Valid1Pass". *)
Theorem validatePassword_accepts_iff :
  (∀ pwd, validatePassword pwd = None ↔
          (8 <= length pwd)%nat
          ∧ (∃ c, c ∈ pwd ∧ uppercase c)
          ∧ (∃ c, c ∈ pwd ∧ lowercase c)
          ∧ (∃ c, c ∈ pwd ∧ digit c))
  ∧ validatePassword (lit "abc") = Some (lit "Password must be at least 8 characters")
  ∧ validatePassword (lit "alllowercase1") = Some (lit "Password must contain uppercase letter")
  ∧ validatePassword (lit "ALLUPPERCASE1") = Some (lit "Password must contain lowercase letter")
  ∧ validatePassword (lit "NoDigitsHere") = Some (lit "Password must contain a digit")
  ∧ validatePassword (lit "Valid1Pass") = None.
Proof.
  split; [ | repeat split; vm_compute; reflexivity ].
  intros pwd. unfold validatePassword, uppercase, lowercase, digit.
  rewrite <- !test_range_spec.
  destruct (N.ltb_spec (N.of_nat (length pwd)) 8) as [Hlen|Hlen].
  { split; [discriminate | intros [H _]; lia]. }
  assert (8 <= length pwd)%nat by lia.
  destruct (test_range 65 90 pwd), (test_range 97 122 pwd), (test_range 48 57 pwd);
    cbn; split; intros Hx; try discriminate; try done;
    destruct Hx as (_ & ? & ? & ?); discriminate.
Qed.

End Password.

(** ** Image validation *)

Section ImageValidation.

Import AdminRegisterScreen.

(** C9, as stated, fails: [checkIn] given the empty image reference sends
    it, as a file part whose [uri] is empty. *)
Lemma empty_image_uri_is_sent :
  req_body <$> sent (snd (ApiService.checkIn accept_all (lit "6.5") (lit "3.4") [] logged_in))
  = [FormBody [(lit "latitude", Text (lit "6.5"));
               (lit "longitude", Text (lit "3.4"));
               (lit "face_image", File [] (lit "image/jpeg") (lit "face.jpg"))]]
  ∧ fst (ApiService.checkIn accept_all (lit "6.5") (lit "3.4") [] logged_in) = Ok empty_reply.
Proof. split; vm_compute; reflexivity. Qed.

(** C9, amended: only the registration form checks the image before
    submitting.  [handleRegister] with no captured image (null or empty)
    shows the validation alert and issues no request.  The API functions
    [checkIn], [checkOut] and [registerEmployee] themselves accept any
    reference, the empty one included, and send the request with it. *)
Theorem image_checked_only_by_register_form :
  (∀ server st w,
     truthy (capturedImage st) = false →
     handleRegister server (st, w)
     = (Ok tt, (st, World (storage w) (sent w)
                      (alerts w ++ [(lit "Error",
                                     lit "Please fill all fields and capture face image")]))))
  ∧ (∀ server c u w,
       carries_image c = Some u →
       ∃ r fd,
         sent (snd (call server c w)) = sent w ++ [r] ∧ req_body r = FormBody fd ∧
         last fd = Some (if startsWith u (lit "data:image/")
                         then (lit "face_image_base64", Text u)
                         else (lit "face_image", File u (lit "image/jpeg") (lit "face.jpg")))).
Proof.
  split.
  - intros server st w H. unfold handleRegister. cbn [fst].
    rewrite H. cbn [negb]. rewrite !orb_true_r. reflexivity.
  - apply image_call_sends_uri.
Qed.

Lemma image_checked_only_by_register_form_witness :
  handleRegister accept_all
    (State (lit "E1") (lit "Ada") (lit "ada@example.com") (lit "Valid1Pass")
       (lit "employee") (Some []) false false false, logged_in)
  = (Ok tt, (State (lit "E1") (lit "Ada") (lit "ada@example.com") (lit "Valid1Pass")
               (lit "employee") (Some []) false false false,
             World (storage logged_in) (sent logged_in)
               (alerts logged_in ++ [(lit "Error",
                                      lit "Please fill all fields and capture face image")])))
  ∧ ∃ r fd,
      sent (snd (call accept_all (CheckOut (lit "6.5") (lit "3.4") []) logged_in))
      = sent logged_in ++ [r] ∧ req_body r = FormBody fd ∧
      last fd = Some (if startsWith [] (lit "data:image/")
                      then (lit "face_image_base64", Text [])
                      else (lit "face_image", File [] (lit "image/jpeg") (lit "face.jpg"))).
Proof.
  split.
  - apply (proj1 image_checked_only_by_register_form). reflexivity.
  - apply (proj2 image_checked_only_by_register_form accept_all
             (CheckOut (lit "6.5") (lit "3.4") []) [] logged_in). reflexivity.
Defined.

End ImageValidation.

(** ** Check-in and check-out on the home screen *)

Section HomeScreen.

Import EmployeeHomeScreen.

Variable server : list request -> request -> net_result.
Variable position : exn + (jsstring * jsstring).
Variable confirmation : jsstring -> data -> exn + jsstring.

(** C8: when the location permission request answers anything but
    [granted], a check-in or check-out attempt ends with the failure alert
    carrying the permission message, the screen is no longer processing,
    and no request has been issued: the list of sent requests is as it
    was. *)
Theorem permission_denied_sends_nothing permission imageUri st w :
  permission ≠ lit "granted" →
  handleCheckIn server (inr permission) position confirmation imageUri (st, w)
  = (Ok tt,
     (State (status st) (loading st) false false (refreshing st),
      World (storage w) (sent w)
        (alerts w ++ [(lit "Check-In Failed",
                       lit "Location permission is required for attendance")])))
  ∧ handleCheckOut server (inr permission) position confirmation imageUri (st, w)
  = (Ok tt,
     (State (status st) (loading st) false false (refreshing st),
      World (storage w) (sent w)
        (alerts w ++ [(lit "Check-Out Failed",
                       lit "Location permission is required for attendance")]))).
Proof.
  intros Hdenied.
  unfold handleCheckIn, handleCheckOut, try_finally, try_catch, bind, await,
    throw_if, ret, throw, setCapturing, setProcessing, modify, Alert_alert.
  cbn [fst snd]. rewrite (bool_decide_eq_false_2 _ Hdenied). cbn. done.
Qed.

End HomeScreen.

Lemma permission_denied_sends_nothing_witness :
  EmployeeHomeScreen.handleCheckIn accept_all (inr (lit "denied"))
    (inr (lit "6.5", lit "3.4")) (fun _ _ => inr (lit "ok")) (lit "file:///face.jpg")
    (EmployeeHomeScreen.initial, logged_in)
  = (Ok tt,
     (EmployeeHomeScreen.State None true false false false,
      World (storage logged_in) (sent logged_in)
        (alerts logged_in ++ [(lit "Check-In Failed",
                               lit "Location permission is required for attendance")])))
  ∧ EmployeeHomeScreen.handleCheckOut accept_all (inr (lit "denied"))
      (inr (lit "6.5", lit "3.4")) (fun _ _ => inr (lit "ok")) (lit "file:///face.jpg")
      (EmployeeHomeScreen.initial, logged_in)
  = (Ok tt,
     (EmployeeHomeScreen.State None true false false false,
      World (storage logged_in) (sent logged_in)
        (alerts logged_in ++ [(lit "Check-Out Failed",
                               lit "Location permission is required for attendance")]))).
Proof.
  apply (permission_denied_sends_nothing accept_all (inr (lit "6.5", lit "3.4"))
           (fun _ _ => inr (lit "ok")) (lit "denied") (lit "file:///face.jpg")
           EmployeeHomeScreen.initial logged_in).
  vm_compute. discriminate.
Defined.

Section Capture.

Import EmployeeHomeScreen.

Variable server : list request -> request -> net_result.
Variable permission : exn + jsstring.
Variable position : exn + (jsstring * jsstring).
Variable confirmation : jsstring -> data -> exn + jsstring.

Lemma checkIn_world la lo u w :
  snd (ApiService.checkIn server la lo u w)
  = World (storage w)
      (sent w ++ [image_request (lit "/api/attendance/check-in") (storage w !! "token") la lo u])
      (alerts w).
Proof.
  unfold_api. unfold image_request. cbv beta iota zeta.
  destruct (startsWith u (lit "data:image/"));
    match goal with |- context [server ?h ?r] => destruct (server h r) end;
    crunch; reflexivity.
Qed.

Lemma checkOut_world la lo u w :
  snd (ApiService.checkOut server la lo u w)
  = World (storage w)
      (sent w ++ [image_request (lit "/api/attendance/check-out") (storage w !! "token") la lo u])
      (alerts w).
Proof.
  unfold_api. unfold image_request. cbv beta iota zeta.
  destruct (startsWith u (lit "data:image/"));
    match goal with |- context [server ?h ?r] => destruct (server h r) end;
    crunch; reflexivity.
Qed.

Lemma loadStatus_world (st : state) w :
  ∃ st' extra,
    snd (loadStatus server (st, w))
    = (st', World (storage w) (sent w ++ [status_request (storage w !! "token")])
              (alerts w ++ extra)).
Proof.
  unfold loadStatus, try_finally, try_catch, lift, setStatus, setLoading, setRefreshing,
    modify, Alert_alert.
  unfold_api. unfold status_request. cbv beta iota zeta. cbn [fst snd].
  match goal with |- context [server ?h ?r] => destruct (server h r) end;
    crunch; cbn; eexists; first [ by exists [] ; rewrite app_nil_r | by eexists ].
Qed.

Lemma handleCheckIn_sent imageUri st w :
  ∃ new,
    sent (snd (handleCheckIn server permission position confirmation imageUri (st, w))).2
    = sent w ++ new
    ∧ capture_requests permission position (lit "/api/attendance/check-in") imageUri w new.
Proof.
  unfold capture_requests, handleCheckIn, try_finally, try_catch, bind, await,
    throw_if, ret, throw, lift, setCapturing, setProcessing, modify, Alert_alert.
  cbn [fst snd].
  destruct permission as [e|p]; [exists []; by rewrite app_nil_r | ].
  destruct (bool_decide (p = lit "granted")); cbn [negb];
    [ | destruct position; exists []; by rewrite app_nil_r ].
  destruct position as [e|loc]; [exists []; by rewrite app_nil_r | ].
  cbn [fst snd status loading capturing processing refreshing].
  pose proof (checkIn_world loc.1 loc.2 imageUri w) as Hw.
  destruct (ApiService.checkIn server loc.1 loc.2 imageUri w) as [[result|e] w1];
    cbn [snd] in Hw; subst w1; cbn [fst snd storage sent alerts].
  2: { eexists; split; [reflexivity | exists []; auto]. }
  destruct (confirmation (lit "Checked in at ") result) as [e|text]; cbn [fst snd sent].
  { eexists; split; [reflexivity | exists []; auto]. }
  match goal with |- context [loadStatus server ?s] =>
    destruct (loadStatus_world s.1 s.2) as (st' & extra & Hl); cbn [fst snd] in Hl;
    destruct (loadStatus server s) as [[[]|e] s1] end;
    cbn [snd] in Hl; subst s1; cbn [fst snd storage sent alerts];
    rewrite <- app_assoc; eexists; (split; [reflexivity | eexists; split; [reflexivity | auto]]).
Qed.

Lemma handleCheckOut_sent imageUri st w :
  ∃ new,
    sent (snd (handleCheckOut server permission position confirmation imageUri (st, w))).2
    = sent w ++ new
    ∧ capture_requests permission position (lit "/api/attendance/check-out") imageUri w new.
Proof.
  unfold capture_requests, handleCheckOut, try_finally, try_catch, bind, await,
    throw_if, ret, throw, lift, setCapturing, setProcessing, modify, Alert_alert.
  cbn [fst snd].
  destruct permission as [e|p]; [exists []; by rewrite app_nil_r | ].
  destruct (bool_decide (p = lit "granted")); cbn [negb];
    [ | destruct position; exists []; by rewrite app_nil_r ].
  destruct position as [e|loc]; [exists []; by rewrite app_nil_r | ].
  cbn [fst snd status loading capturing processing refreshing].
  pose proof (checkOut_world loc.1 loc.2 imageUri w) as Hw.
  destruct (ApiService.checkOut server loc.1 loc.2 imageUri w) as [[result|e] w1];
    cbn [snd] in Hw; subst w1; cbn [fst snd storage sent alerts].
  2: { eexists; split; [reflexivity | exists []; auto]. }
  destruct (confirmation (lit "Checked out at ") result) as [e|text]; cbn [fst snd sent].
  { eexists; split; [reflexivity | exists []; auto]. }
  match goal with |- context [loadStatus server ?s] =>
    destruct (loadStatus_world s.1 s.2) as (st' & extra & Hl); cbn [fst snd] in Hl;
    destruct (loadStatus server s) as [[[]|e] s1] end;
    cbn [snd] in Hl; subst s1; cbn [fst snd storage sent alerts];
    rewrite <- app_assoc; eexists; (split; [reflexivity | eexists; split; [reflexivity | auto]]).
Qed.

End Capture.

(** C10: the handler given to the camera is chosen by the fetched status.
    With [checked_in] true the capture goes to the check-out endpoint,
    otherwise to the check-in endpoint.  Of the requests a capture causes,
    none addresses the other endpoint; when permission is granted and a
    position obtained the first one submits the image to the chosen
    endpoint and whatever follows carries no body. *)
Theorem capture_submitted_to_one_endpoint
    server permission position confirmation st imageUri w :
  let chosen :=
    if EmployeeHomeScreen.status_checked_in st
    then lit "/api/attendance/check-out" else lit "/api/attendance/check-in" in
  let other :=
    if EmployeeHomeScreen.status_checked_in st
    then lit "/api/attendance/check-in" else lit "/api/attendance/check-out" in
  ∃ new,
    sent (snd (EmployeeHomeScreen.onCapture server permission position confirmation
                 st imageUri (st, w))).2 = sent w ++ new
    ∧ (∀ r, r ∈ new → url r ≠ API_URL ++ other)
    ∧ match permission, position with
      | inr p, inr loc =>
          if bool_decide (p = lit "granted")
          then ∃ rest,
              new = image_request chosen (storage w !! "token") loc.1 loc.2 imageUri :: rest
              ∧ ∀ r, r ∈ rest → req_body r = NoBody
          else new = []
      | _, _ => new = []
      end.
Proof.
  intros chosen other. unfold EmployeeHomeScreen.onCapture.
  assert (Hnew : ∃ new,
    sent (snd ((if EmployeeHomeScreen.status_checked_in st
                then EmployeeHomeScreen.handleCheckOut server permission position confirmation
                else EmployeeHomeScreen.handleCheckIn server permission position confirmation)
               imageUri (st, w))).2 = sent w ++ new
    ∧ capture_requests permission position chosen imageUri w new).
  { subst chosen. destruct (EmployeeHomeScreen.status_checked_in st).
    - apply handleCheckOut_sent.
    - apply handleCheckIn_sent. }
  destruct Hnew as (new & Hsent & Hnew). exists new. split; [exact Hsent | ].
  unfold capture_requests in Hnew.
  destruct permission as [e|p]; [subst new; split; [by intros r ?%elem_of_nil | done] | ].
  destruct position as [e|loc]; [subst new; split; [by intros r ?%elem_of_nil | done] | ].
  destruct (bool_decide (p = lit "granted"));
    [ | subst new; split; [by intros r ?%elem_of_nil | done] ].
  destruct Hnew as (rest & -> & Hrest). split.
  - intros r Hr. subst chosen other.
    apply elem_of_cons in Hr as [-> | Hr].
    + destruct (EmployeeHomeScreen.status_checked_in st); vm_compute; discriminate.
    + destruct Hrest as [-> | ->]; [by apply elem_of_nil in Hr | ].
      apply list_elem_of_singleton in Hr as ->.
      destruct (EmployeeHomeScreen.status_checked_in st); vm_compute; discriminate.
  - exists rest. split; [reflexivity | ].
    intros r Hr. destruct Hrest as [-> | ->]; [by apply elem_of_nil in Hr | ].
    by apply list_elem_of_singleton in Hr as ->.
Qed.

(** ** Paginated history *)

Section History.

Import EmployeeHistoryScreen.

Lemma rerender_same rendered s :
  page (ui s) = page rendered → rerender rendered s = s.
Proof. intros H. unfold rerender. by rewrite bool_decide_eq_true_2. Qed.

Lemma loadMore_at_end s :
  match pagination (ui s) with
  | Some pg => pg_pages pg <= page (ui s)
  | None => True
  end →
  step s EndReached = s.
Proof.
  intros H. unfold step, loadMore.
  destruct (pagination (ui s)) as [pg|]; [ | by apply rerender_same ].
  destruct (N.ltb_spec (page (ui s)) (pg_pages pg)); [lia | by apply rerender_same].
Qed.

Lemma loadMore_at_end_repeated s n :
  match pagination (ui s) with
  | Some pg => pg_pages pg <= page (ui s)
  | None => True
  end →
  run s (replicate n EndReached) = s.
Proof.
  intros H. induction n as [|n IH]; [reflexivity | ].
  unfold run in *. cbn [replicate foldl]. by rewrite loadMore_at_end.
Qed.

(** C4, as stated, fails: reaching the end of page 1 of 2 fetches page 2
    and its records replace those of page 1 instead of following them. *)
Lemma load_more_drops_previous_page :
  records (ui showing_page1) = Some [day2]
  ∧ pending (step showing_page1 EndReached) = [(2, 30)]
  ∧ records (ui (run showing_page1 [EndReached; Settle 0 (Ok page2)])) = Some [day1]
  ∧ records (ui (run showing_page1 [EndReached; Settle 0 (Ok page2)])) ≠ Some [day2; day1].
Proof. repeat split; vm_compute; try reflexivity; discriminate. Qed.

(** C4, amended: reaching the scroll end while [page] is below the known
    number of pages moves the cursor to [page + 1] and fetches that page;
    when the fetch settles, its records replace the displayed ones (pages
    are not accumulated).  Once [page] has reached the number of pages, or
    while no pagination is known, reaching the scroll end any number of
    times changes nothing and fetches nothing. *)
Theorem load_more_replaces_and_stops s :
  match pagination (ui s) with
  | Some pg =>
      if page (ui s) <? pg_pages pg
      then
        let s1 := step s EndReached in
        page (ui s1) = page (ui s) + 1
        ∧ records (ui s1) = records (ui s)
        ∧ pending s1 = pending s ++ [(page (ui s) + 1, 30)]
        ∧ ∀ d, let s2 := step s1 (Settle (length (pending s)) (Ok d)) in
               records (ui s2) = d_records d ∧ pending s2 = pending s
      else ∀ n, run s (replicate n EndReached) = s
  | None => ∀ n, run s (replicate n EndReached) = s
  end.
Proof.
  destruct (pagination (ui s)) as [pg|] eqn:Hpg.
  2: { intros n. apply loadMore_at_end_repeated. by rewrite Hpg. }
  destruct (N.ltb_spec (page (ui s)) (pg_pages pg)) as [Hlt|Hge].
  2: { intros n. apply loadMore_at_end_repeated. by rewrite Hpg. }
  assert (Hstep : step s EndReached
            = Screen (State (records (ui s)) (Some pg) (loading (ui s))
                        (refreshing (ui s)) (page (ui s) + 1))
                (pending s ++ [(page (ui s) + 1, 30)]) (shown s)).
  { unfold step, loadMore. rewrite Hpg.
    destruct (N.ltb_spec (page (ui s)) (pg_pages pg)); [ | lia].
    unfold rerender, setPage, set, loadRecords. cbn [ui page pending shown].
    rewrite bool_decide_eq_false_2 by lia. by rewrite Hpg. }
  cbv zeta. rewrite Hstep. cbn [ui page records pending].
  repeat split; try reflexivity.
  all: unfold step; cbn [ui pending shown]; rewrite list_lookup_middle by reflexivity;
    rewrite delete_middle;
    unfold loadRecords_resume, setRecords, setPagination, setLoading, setRefreshing, set;
    cbn [ui pending shown page records]; rewrite rerender_same by reflexivity;
    rewrite ?app_nil_r; reflexivity.
Qed.

(** Pull-to-refresh always moves the cursor to page 1; it calls
    [loadRecords] with the page of the render it was created in and, when
    that page was not 1, the effect then loads page 1 as well. *)
Lemma refresh_resets_cursor s :
  page (ui (step s PullToRefresh)) = 1
  ∧ pending (step s PullToRefresh)
    = pending s ++ (if bool_decide (page (ui s) = 1) then [(1, 30)]
                    else [(page (ui s), 30); (1, 30)]).
Proof.
  unfold step, onRefresh, rerender, loadRecords, setPage, setRefreshing, set.
  cbn [ui page pending shown].
  destruct (decide (page (ui s) = 1)) as [H1|H1].
  - rewrite !bool_decide_eq_true_2 by done. cbn [ui page pending]. rewrite H1. by split.
  - rewrite (bool_decide_eq_false_2 (1 = _)) by done.
    rewrite (bool_decide_eq_false_2 (_ = 1)) by done.
    cbn [ui page pending]. rewrite <- app_assoc. by split.
Qed.

Lemma resume_page r s : page (ui (loadRecords_resume r s)) = page (ui s).
Proof. by destruct r. Qed.

Lemma resume_pending r s : pending (loadRecords_resume r s) = pending s.
Proof. by destruct r. Qed.

Lemma resume_records d s : records (ui (loadRecords_resume (Ok d) s)) = d_records d.
Proof. reflexivity. Qed.

(** Settling the oldest pending call runs the rest of [loadRecords] and
    causes no further load, the page being unchanged. *)
Lemma settle_head s a rest r :
  pending s = a :: rest →
  step s (Settle 0 r) = loadRecords_resume r (Screen (ui s) rest (shown s)).
Proof.
  intros H. unfold step. rewrite H. cbn [lookup list_lookup delete list_delete].
  apply rerender_same. by rewrite resume_page.
Qed.

(** When the calls a refresh made settle in the order they were made, the
    list ends up holding the records of page 1. *)
Lemma refresh_in_order s stale d :
  pending s = [] →
  let s' := run s (PullToRefresh
                     :: (if bool_decide (page (ui s) = 1) then [] else [Settle 0 stale])
                     ++ [Settle 0 (Ok d)]) in
  page (ui s') = 1 ∧ pending s' = [] ∧ records (ui s') = d_records d.
Proof.
  intros Hp. cbv zeta. unfold run. cbn [foldl].
  destruct (refresh_resets_cursor s) as [Hpage Hpend]. rewrite Hp in Hpend.
  destruct (bool_decide (page (ui s) = 1)); cbn [app foldl] in *.
  - rewrite (settle_head _ _ _ _ Hpend).
    by rewrite resume_page, resume_pending, resume_records.
  - rewrite (settle_head _ _ _ stale Hpend).
    rewrite (settle_head _ (1, 30) [] (Ok d)) by by rewrite resume_pending.
    rewrite resume_page, resume_pending, resume_records. cbn [ui pending].
    by rewrite resume_page.
Qed.

(** C6 at the failing input: the screen shows page 2 and is refreshed.  The
    refresh issues the call for page 2 (the page of the render that created
    [onRefresh]) and then the call for page 1.  When the page-1 call settles
    first and the page-2 call afterwards, the cursor is 1, nothing is
    pending, and the list holds the records of page 2. *)
Theorem refresh_race_leaves_stale_page :
  pending (step showing_page2 PullToRefresh) = [(2, 30); (1, 30)]
  ∧ let s := run showing_page2 [PullToRefresh; Settle 1 (Ok page1); Settle 0 (Ok page2)] in
    page (ui s) = 1
    ∧ pending s = []
    ∧ records (ui s) = d_records page2
    ∧ records (ui s) ≠ d_records page1.
Proof. repeat split; vm_compute; try reflexivity; discriminate. Qed.

End History.

(** * Further properties *)

(** ** Session store *)

(** Every way [login] can end: the request is always made; storage is
    written only after a 2xx JSON reply, the token first. *)
Lemma login_outcome server undefined_value email password w :
  ∃ r,
    AuthService.login server undefined_value email password w
    = match server (sent w) r with
      | NetworkError e => (Throw e, World (storage w) (sent w ++ [r]) (alerts w))
      | Reply rsp =>
          match rsp_json rsp with
          | inl e => (Throw e, World (storage w) (sent w ++ [r]) (alerts w))
          | inr d =>
              if ok rsp
              then
                match d_token d, d_employee d with
                | None, _ =>
                    (Throw (undefined_value "token"),
                     World (storage w) (sent w ++ [r]) (alerts w))
                | Some t, None =>
                    (Throw (undefined_value "user"),
                     World (<["token" := t]> (storage w)) (sent w ++ [r]) (alerts w))
                | Some t, Some u =>
                    (Ok d,
                     World (<["user" := u]> (<["token" := t]> (storage w)))
                       (sent w ++ [r]) (alerts w))
                end
              else
                (Throw (new_Error (or_else (detail d) (lit "Login failed"))),
                 World (storage w) (sent w ++ [r]) (alerts w))
          end
      end.
Proof.
  unfold AuthService.login, AsyncStorage.setItem, fetch, json, bind, throw_if, ret, throw.
  on_reply server w; [reflexivity | ].
  destruct (rsp_json rsp) as [e|d]; [reflexivity | ].
  destruct (ok rsp); cbn [negb]; [ | reflexivity].
  destruct (d_token d); [destruct (d_employee d) | ]; reflexivity.
Qed.

(** A login that returned has stored the reply's token and employee. *)
Lemma login_returned server undefined_value email password w d :
  fst (AuthService.login server undefined_value email password w) = Ok d →
  ∃ t u, d_token d = Some t ∧ d_employee d = Some u
       ∧ storage (snd (AuthService.login server undefined_value email password w))
         = <["user" := u]> (<["token" := t]> (storage w))
       ∧ alerts (snd (AuthService.login server undefined_value email password w))
         = alerts w.
Proof.
  destruct (login_outcome server undefined_value email password w) as (r & ->).
  destruct (server (sent w) r) as [e|rsp]; [done | ].
  destruct (rsp_json rsp) as [e|d']; [done | ].
  destruct (ok rsp); [ | done].
  destruct (d_token d') as [t|] eqn:Ht; [ | done].
  destruct (d_employee d') as [u|] eqn:Hu; [ | done].
  cbn [fst snd storage alerts]. intros [= <-]. by exists t, u.
Qed.

(** A login that threw has written no identity, and no token either
    unless it is the second [setItem] that rejected. *)
Lemma login_threw server undefined_value email password w e :
  fst (AuthService.login server undefined_value email password w) = Throw e →
  alerts (snd (AuthService.login server undefined_value email password w)) = alerts w
  ∧ length (sent (snd (AuthService.login server undefined_value email password w)))
    = S (length (sent w))
  ∧ storage (snd (AuthService.login server undefined_value email password w)) !! "user"
    = storage w !! "user"
  ∧ (storage (snd (AuthService.login server undefined_value email password w)) = storage w
     ∨ ∃ t, storage (snd (AuthService.login server undefined_value email password w))
            = <["token" := t]> (storage w)
          ∧ e = undefined_value "user").
Proof.
  destruct (login_outcome server undefined_value email password w) as (r & ->).
  assert (Hlen : length (sent w ++ [r]) = S (length (sent w)))
    by (rewrite length_app; cbn; lia).
  destruct (server (sent w) r) as [e'|rsp]; [intros _; by repeat split; auto | ].
  destruct (rsp_json rsp) as [e'|d]; [intros _; by repeat split; auto | ].
  destruct (ok rsp); [ | intros _; by repeat split; auto].
  destruct (d_token d) as [t|]; [ | intros _; by repeat split; auto].
  destruct (d_employee d) as [u|]; [done | ].
  cbn [fst snd storage alerts sent]. intros [= <-].
  repeat split; [done | by simplify_map_eq | right; by exists t].
Qed.

(** X1: a login answered 2xx with a JSON body that carries a token and an
    employee returns that body and persists both; [getToken] then returns
    the token. *)
Theorem login_stores_session server undefined_value email password w rsp d t u :
  (∀ r, server (sent w) r = Reply rsp) → rsp_json rsp = inr d → ok rsp = true →
  d_token d = Some t → d_employee d = Some u →
  let w' := snd (AuthService.login server undefined_value email password w) in
  fst (AuthService.login server undefined_value email password w) = Ok d
  ∧ storage w' = <["user" := u]> (<["token" := t]> (storage w))
  ∧ fst (AuthService.getToken w') = Ok (Some t)
  ∧ storage w' !! "user" = Some u.
Proof.
  intros Hr Hj Hok Ht Hu. cbv zeta.
  destruct (login_outcome server undefined_value email password w) as (r & ->).
  rewrite Hr, Hj, Hok, Ht, Hu.
  unfold AuthService.getToken, AsyncStorage.getItem. cbn [fst snd storage].
  repeat split; by simplify_map_eq.
Qed.

Lemma login_stores_session_witness :
  let w' :=
    snd (AuthService.login sign_in rejects_undefined (lit "a@b.c") (lit "pw") no_session) in
  fst (AuthService.login sign_in rejects_undefined (lit "a@b.c") (lit "pw") no_session)
  = Ok session_reply
  ∧ storage w' = <["user" := lit "{}"]> (<["token" := lit "abc"]> (storage no_session))
  ∧ fst (AuthService.getToken w') = Ok (Some (lit "abc"))
  ∧ storage w' !! "user" = Some (lit "{}").
Proof.
  apply (login_stores_session sign_in rejects_undefined (lit "a@b.c") (lit "pw") no_session
           (Response 200 (inr session_reply)) session_reply (lit "abc") (lit "{}"));
    reflexivity.
Defined.

(** X2: a login that throws has made its one request, shows no alert and
    stores no identity.  It leaves the storage untouched except in one
    case: the reply was accepted and its token written, and it is the
    write of the identity that rejected; the token then stays stored. *)
Theorem failed_login_writes_at_most_token server undefined_value email password w e :
  fst (AuthService.login server undefined_value email password w) = Throw e →
  let w' := snd (AuthService.login server undefined_value email password w) in
  alerts w' = alerts w
  ∧ length (sent w') = S (length (sent w))
  ∧ storage w' !! "user" = storage w !! "user"
  ∧ (storage w' = storage w
     ∨ ∃ t, storage w' = <["token" := t]> (storage w) ∧ e = undefined_value "user").
Proof. intros H. cbv zeta. by apply login_threw. Qed.

Lemma failed_login_writes_at_most_token_witness :
  let w' :=
    snd (AuthService.login sign_in_token_only rejects_undefined (lit "a@b.c") (lit "pw")
           no_session) in
  alerts w' = alerts no_session
  ∧ length (sent w') = S (length (sent no_session))
  ∧ storage w' !! "user" = storage no_session !! "user"
  ∧ (storage w' = storage no_session
     ∨ ∃ t, storage w' = <["token" := t]> (storage no_session)
          ∧ rejects_undefined "user" = rejects_undefined "user").
Proof.
  apply (failed_login_writes_at_most_token sign_in_token_only rejects_undefined
           (lit "a@b.c") (lit "pw") no_session (rejects_undefined "user")).
  reflexivity.
Defined.

(** X3: logout removes the token and the identity and nothing else: other
    storage keys, the request log and the alerts are untouched; afterwards
    [getToken] and [getUser] return [null], and logging out again changes
    nothing. *)
Theorem logout_clears_session (JSON_parse : jsstring -> exn + jsvalue) w :
  let w' := snd (AuthService.logout w) in
  fst (AuthService.logout w) = Ok tt
  ∧ fst (AuthService.getToken w') = Ok None
  ∧ fst (AuthService.getUser JSON_parse w') = Ok None
  ∧ (∀ k, k ≠ "token" → k ≠ "user" → storage w' !! k = storage w !! k)
  ∧ sent w' = sent w ∧ alerts w' = alerts w
  ∧ snd (AuthService.logout w') = w'.
Proof.
  cbv zeta.
  unfold AuthService.logout, AuthService.getToken, AuthService.getUser,
    AsyncStorage.removeItem, AsyncStorage.getItem, bind, ret.
  cbn [fst snd storage sent alerts].
  repeat split.
  - by simplify_map_eq.
  - by simplify_map_eq.
  - intros k H1 H2. by simplify_map_eq.
  - f_equal. apply map_eq. intros k. rewrite !lookup_delete.
    repeat case_decide; done.
Qed.

(** X4: the token a login that returned has stored is the one every later
    API call sends, and after a logout the calls send [Bearer null]. *)
Theorem session_token_reaches_requests server undefined_value email password w d c :
  fst (AuthService.login server undefined_value email password w) = Ok d →
  let w1 := snd (AuthService.login server undefined_value email password w) in
  let w2 := snd (AuthService.logout w1) in
  ∃ t, d_token d = Some t
     ∧ (∃ r, sent (snd (call server c w1)) = sent w1 ++ [r]
           ∧ headers r !! 0%nat = Some (lit "Authorization", lit "Bearer " ++ t))
     ∧ (∃ r, sent (snd (call server c w2)) = sent w2 ++ [r]
           ∧ headers r !! 0%nat = Some (lit "Authorization", lit "Bearer null")).
Proof.
  intros Hl w1 w2.
  destruct (login_returned server undefined_value email password w d Hl)
    as (t & u & Ht & Hu & Hs & _).
  exists t. split; [done | ].
  assert (Hs1 : storage w1 !! "token" = Some t).
  { subst w1. rewrite Hs. by simplify_map_eq. }
  assert (Hs2 : storage w2 !! "token" = None).
  { subst w2. unfold AuthService.logout, AsyncStorage.removeItem, bind.
    cbn [fst snd storage]. by simplify_map_eq. }
  split.
  - destruct (call_sends_one server c w1) as (r & Hw & Hh & _).
    exists r. rewrite Hw, Hh, Hs1. done.
  - destruct (call_sends_one server c w2) as (r & Hw & Hh & _).
    exists r. rewrite Hw, Hh, Hs2. done.
Qed.

Lemma session_token_reaches_requests_witness :
  let w1 :=
    snd (AuthService.login sign_in rejects_undefined (lit "a@b.c") (lit "pw") no_session) in
  let w2 := snd (AuthService.logout w1) in
  ∃ t, d_token session_reply = Some t
     ∧ (∃ r, sent (snd (call sign_in GetProfile w1)) = sent w1 ++ [r]
           ∧ headers r !! 0%nat = Some (lit "Authorization", lit "Bearer " ++ t))
     ∧ (∃ r, sent (snd (call sign_in GetProfile w2)) = sent w2 ++ [r]
           ∧ headers r !! 0%nat = Some (lit "Authorization", lit "Bearer null")).
Proof.
  apply (session_token_reaches_requests sign_in rejects_undefined (lit "a@b.c") (lit "pw")
           no_session session_reply GetProfile).
  reflexivity.
Defined.

(** ** Failures of the API calls *)

(** X5: when [fetch] rejects, or when the body of the response is not
    JSON, the call throws that very error ([registerEmployee] wraps it).
    The status is not looked at in the second case: an error response with
    a non-JSON body surfaces the parse error, not the call's own message. *)
Theorem transport_errors_propagate server c w e :
  (∀ r, server (sent w) r = NetworkError e
        ∨ ∃ st, server (sent w) r = Reply (Response st (inl e))) →
  fst (call server c w) = Throw (rethrown c e).
Proof.
  intros H. destruct c; unfold_api; cbv beta iota zeta;
    match goal with |- context [server (sent w) ?r] =>
      destruct (H r) as [-> | [st ->]] end; reflexivity.
Qed.

Lemma transport_errors_propagate_witness :
  fst (call (fun _ _ => Reply (Response 502 (inl (Exn SyntaxError (lit "Unexpected token <")))))
         GetStatus logged_in)
  = Throw (rethrown GetStatus (Exn SyntaxError (lit "Unexpected token <"))).
Proof.
  apply (transport_errors_propagate
           (fun _ _ => Reply (Response 502 (inl (Exn SyntaxError (lit "Unexpected token <")))))
           GetStatus logged_in (Exn SyntaxError (lit "Unexpected token <"))).
  intros r. right. exists 502. reflexivity.
Defined.

(** X6: on a non-2xx JSON reply, the calls that submit or change something
    throw the reply's [detail] when it is a non-empty string; the calls
    that only fetch (status, lists, profile, analytics, settings, shifts)
    and the status toggle throw a fixed message, whatever the reply says. *)
Theorem error_detail_surfaced c :
  if surfaces_detail c
  then ∀ server w st d m,
      detail d = Some m → m ≠ [] → ok (Response st (inr d)) = false →
      (∀ r, server (sent w) r = Reply (Response st (inr d))) →
      fst (call server c w) = Throw (rethrown c (new_Error m))
  else ∃ msg, ∀ server w st d,
      ok (Response st (inr d)) = false →
      (∀ r, server (sent w) r = Reply (Response st (inr d))) →
      fst (call server c w) = Throw (new_Error msg).
Proof.
  destruct c; cbn [surfaces_detail].
  all: try (intros server w st d m Hd Hm Hok H; unfold_api; cbv beta iota zeta;
            rewrite H; cbn [rsp_json]; rewrite Hok, Hd; cbn [negb];
            destruct m; [done | reflexivity]).
  all: eexists; intros server w st d Hok H; unfold_api; cbv beta iota zeta;
    rewrite H; cbn [rsp_json]; rewrite Hok; reflexivity.
Qed.

(** An API call reads the session store but never writes it, shows no
    alert, and adds exactly one request to the log, whatever the backend
    does. *)
Theorem call_leaves_session_alone server c w :
  storage (snd (call server c w)) = storage w
  ∧ alerts (snd (call server c w)) = alerts w
  ∧ ∃ r, sent (snd (call server c w)) = sent w ++ [r].
Proof.
  destruct (call_sends_one server c w) as (r & Hw & _).
  rewrite Hw. repeat split. by exists r.
Qed.

Lemma append_all_fmap fd shiftData :
  ApiService.append_all fd shiftData = fd ++ ((fun kv => (kv.1, Text kv.2)) <$> shiftData).
Proof.
  unfold ApiService.append_all. revert fd.
  induction shiftData as [|kv l IH]; intros fd; cbn [foldl fmap list_fmap].
  - by rewrite app_nil_r.
  - rewrite IH. unfold append. by rewrite <- app_assoc.
Qed.

(** X7: [createShift] and [updateShift] send one text field per entry of
    the shift data, in the same order, and no file part. *)
Theorem shift_fields_sent_in_order server shiftId shiftData w :
  (∃ r, sent (snd (ApiService.createShift server shiftData w)) = sent w ++ [r]
      ∧ req_body r = FormBody ((fun kv => (kv.1, Text kv.2)) <$> shiftData))
  ∧ (∃ r, sent (snd (ApiService.updateShift server shiftId shiftData w)) = sent w ++ [r]
        ∧ req_body r = FormBody ((fun kv => (kv.1, Text kv.2)) <$> shiftData)).
Proof.
  split; unfold_api; cbv beta iota zeta; rewrite append_all_fmap; cbn [app];
    on_reply server w; (split; [crunch; reflexivity | reflexivity]).
Qed.

(** ** Home screen *)

Section HomeScreenMore.

Import EmployeeHomeScreen.

Variable server : list request -> request -> net_result.
Variable permission : exn + jsstring.
Variable position : exn + (jsstring * jsstring).
Variable confirmation : jsstring -> data -> exn + jsstring.

(** [loadStatus] never throws and always clears both spinners.  When
    the status fetch succeeds the fetched status replaces the old one and
    nothing is shown; when it fails the status on screen is kept and one
    [Error] alert carries the message. *)
Theorem loadStatus_outcome st w :
  loadStatus server (st, w)
  = match ApiService.getStatus server w with
    | (Ok d, w') =>
        (Ok tt, (State (Some d) false (capturing st) (processing st) false, w'))
    | (Throw e, w') =>
        (Ok tt, (State (status st) false (capturing st) (processing st) false,
                 World (storage w') (sent w') (alerts w' ++ [(lit "Error", message e)])))
    end.
Proof.
  unfold loadStatus, try_finally, try_catch, bind, lift, setStatus, setLoading,
    setRefreshing, modify, Alert_alert. cbn [fst snd].
  destruct (ApiService.getStatus server w) as [[d|e] w']; reflexivity.
Qed.

Lemma loadStatus_keeps st w :
  fst (loadStatus server (st, w)) = Ok tt
  ∧ capturing (snd (loadStatus server (st, w))).1 = capturing st
  ∧ processing (snd (loadStatus server (st, w))).1 = processing st
  ∧ storage (snd (loadStatus server (st, w))).2 = storage w.
Proof.
  unfold loadStatus, try_finally, try_catch, bind, lift, setStatus, setLoading,
    setRefreshing, modify, Alert_alert. cbn [fst snd].
  destruct (call_sends_one server GetStatus w) as (r & Hs & _). cbn [call] in Hs.
  destruct (ApiService.getStatus server w) as [[d|e] w']; cbn [fst snd] in *;
    subst w'; done.
Qed.

(** X8: a capture handler never throws, whatever the location service
    and the backend do; when it is done the camera is closed, the screen is
    no longer processing, and the session store is as it was. *)
Theorem capture_handlers_always_finish imageUri st w :
  (fst (handleCheckIn server permission position confirmation imageUri (st, w)) = Ok tt
   ∧ capturing (snd (handleCheckIn server permission position confirmation imageUri
                       (st, w))).1 = false
   ∧ processing (snd (handleCheckIn server permission position confirmation imageUri
                        (st, w))).1 = false
   ∧ storage (snd (handleCheckIn server permission position confirmation imageUri
                     (st, w))).2 = storage w)
  ∧ (fst (handleCheckOut server permission position confirmation imageUri (st, w)) = Ok tt
     ∧ capturing (snd (handleCheckOut server permission position confirmation imageUri
                         (st, w))).1 = false
     ∧ processing (snd (handleCheckOut server permission position confirmation imageUri
                          (st, w))).1 = false
     ∧ storage (snd (handleCheckOut server permission position confirmation imageUri
                       (st, w))).2 = storage w).
Proof.
  split.
  - unfold handleCheckIn, try_finally, try_catch, bind, await,
      throw_if, ret, throw, lift, setCapturing, setProcessing, modify, Alert_alert.
    cbn [fst snd].
    destruct permission as [e|p]; [done | ].
    destruct (bool_decide (p = lit "granted")); cbn [negb]; [ | done].
    destruct position as [e|loc]; [done | ].
    cbn [fst snd status loading capturing processing refreshing].
    pose proof (checkIn_world server loc.1 loc.2 imageUri w) as Hw.
    destruct (ApiService.checkIn server loc.1 loc.2 imageUri w) as [[result|e] w1];
      cbn [snd] in Hw; subst w1; cbn [fst snd storage sent alerts]; [ | done].
    destruct (confirmation (lit "Checked in at ") result) as [e|text];
      cbn [fst snd storage sent alerts]; [done | ].
    match goal with |- context [loadStatus server (?a, ?b)] =>
      destruct (loadStatus_keeps a b) as (H1 & H2 & H3 & H4);
      destruct (loadStatus server (a, b)) as [[[]|e] [st1 w1]] end;
      cbn [fst snd capturing processing storage] in *; done.
  - unfold handleCheckOut, try_finally, try_catch, bind, await,
      throw_if, ret, throw, lift, setCapturing, setProcessing, modify, Alert_alert.
    cbn [fst snd].
    destruct permission as [e|p]; [done | ].
    destruct (bool_decide (p = lit "granted")); cbn [negb]; [ | done].
    destruct position as [e|loc]; [done | ].
    cbn [fst snd status loading capturing processing refreshing].
    pose proof (checkOut_world server loc.1 loc.2 imageUri w) as Hw.
    destruct (ApiService.checkOut server loc.1 loc.2 imageUri w) as [[result|e] w1];
      cbn [snd] in Hw; subst w1; cbn [fst snd storage sent alerts]; [ | done].
    destruct (confirmation (lit "Checked out at ") result) as [e|text];
      cbn [fst snd storage sent alerts]; [done | ].
    match goal with |- context [loadStatus server (?a, ?b)] =>
      destruct (loadStatus_keeps a b) as (H1 & H2 & H3 & H4);
      destruct (loadStatus server (a, b)) as [[[]|e] [st1 w1]] end;
      cbn [fst snd capturing processing storage] in *; done.
Qed.

(** X9: when the check-in call itself fails (no response, bad body or a
    non-2xx status), the attempt has made that one request and no status
    re-fetch, shows [Check-In Failed] with the error's message, and leaves
    the status on screen as it was. *)
Theorem failed_check_in_is_not_refreshed p loc imageUri st w e :
  permission = inr p → p = lit "granted" → position = inr loc →
  fst (ApiService.checkIn server loc.1 loc.2 imageUri w) = Throw e →
  handleCheckIn server permission position confirmation imageUri (st, w)
  = (Ok tt,
     (State (status st) (loading st) false false (refreshing st),
      World (storage w)
        (sent w ++ [image_request (lit "/api/attendance/check-in") (storage w !! "token")
                      loc.1 loc.2 imageUri])
        (alerts w ++ [(lit "Check-In Failed", message e)]))).
Proof.
  intros -> -> -> He.
  unfold handleCheckIn, try_finally, try_catch, bind, await,
    throw_if, ret, throw, lift, setCapturing, setProcessing, modify, Alert_alert.
  cbn [fst snd]. rewrite bool_decide_eq_true_2 by done. cbn [negb].
  cbn [fst snd status loading capturing processing refreshing].
  pose proof (checkIn_world server loc.1 loc.2 imageUri w) as Hw.
  destruct (ApiService.checkIn server loc.1 loc.2 imageUri w) as [[result|e'] w1];
    cbn [fst snd] in *; [done | ].
  injection He as ->. subst w1. reflexivity.
Qed.

End HomeScreenMore.

Lemma failed_check_in_is_not_refreshed_witness :
  EmployeeHomeScreen.handleCheckIn reject_all (inr (lit "granted"))
    (inr (lit "6.5", lit "3.4")) (fun _ _ => inr (lit "ok")) (lit "file:///face.jpg")
    (EmployeeHomeScreen.initial, logged_in)
  = (Ok tt,
     (EmployeeHomeScreen.State None true false false false,
      World (storage logged_in)
        (sent logged_in
           ++ [image_request (lit "/api/attendance/check-in") (storage logged_in !! "token")
                 (lit "6.5") (lit "3.4") (lit "file:///face.jpg")])
        (alerts logged_in ++ [(lit "Check-In Failed", lit "Check-in failed")]))).
Proof.
  apply (failed_check_in_is_not_refreshed reject_all (inr (lit "granted"))
           (inr (lit "6.5", lit "3.4")) (fun _ _ => inr (lit "ok"))
           (lit "granted") (lit "6.5", lit "3.4") (lit "file:///face.jpg")
           EmployeeHomeScreen.initial logged_in (new_Error (lit "Check-in failed")));
    reflexivity.
Defined.

(** ** History screen *)

Section HistoryMore.

Import EmployeeHistoryScreen.

Lemma rerender_page rendered s :
  page (ui (rerender rendered s)) = page (ui s).
Proof. unfold rerender. by case_bool_decide. Qed.

Lemma rerender_pending rendered s :
  pending (rerender rendered s) = pending s
  ∨ pending (rerender rendered s) = pending s ++ [(page (ui s), 30)].
Proof. unfold rerender. case_bool_decide; [by left | by right]. Qed.

Lemma step_history_ok s e : history_ok s → history_ok (step s e).
Proof.
  intros [Hp Hq]. unfold history_ok, step.
  destruct e as [ | | |i r].
  - split; [done | ]. cbn. apply Forall_app. split; [done | ]. by repeat constructor.
  - rewrite rerender_page.
    destruct (rerender_pending (ui s) (onRefresh (ui s) s)) as [-> | ->]; cbn.
    + split; [lia | ]. apply Forall_app. split; [done | ]. by repeat constructor.
    + split; [lia | ]. rewrite !Forall_app. repeat split; try done.
      all: repeat constructor; cbn; lia.
  - rewrite rerender_page.
    assert (Hl : 1 <= page (ui (loadMore (ui s) s))
                 ∧ pending (loadMore (ui s) s) = pending s).
    { unfold loadMore. destruct (pagination (ui s)) as [pg|]; [ | done].
      destruct (page (ui s) <? pg_pages pg); cbn; [ | done]. split; [lia | done]. }
    destruct Hl as [Hl1 Hl2]. split; [done | ].
    destruct (rerender_pending (ui s) (loadMore (ui s) s)) as [-> | ->]; rewrite Hl2.
    + done.
    + apply Forall_app. split; [done | ]. by repeat constructor.
  - destruct (pending s !! i) eqn:Hi; [ | done].
    rewrite rerender_page, resume_page. cbn [ui page]. split; [done | ].
    assert (Hd : Forall (fun c => 1 <= c.1 ∧ c.2 = 30) (delete i (pending s))).
    { by apply Forall_delete. }
    match goal with |- context [rerender ?a ?b] =>
      destruct (rerender_pending a b) as [-> | ->] end;
      rewrite resume_pending; cbn [pending]; [done | ].
    apply Forall_app. split; [done | ]. apply Forall_singleton. cbn [fst snd].
    split; [ | done]. by rewrite resume_page.
Qed.

Lemma run_history_ok es : ∀ s, history_ok s → history_ok (run s es).
Proof.
  unfold run. induction es as [|e es IH]; intros s H0; cbn [foldl]; [done | ].
  apply IH. by apply step_history_ok.
Qed.

(** X10: from a fresh screen, whatever the user does and however the calls
    settle, the page cursor never drops below 1 and every call the screen
    makes asks for a page from 1 upwards, 30 records at a time. *)
Theorem history_requests_are_pages es :
  let s := run (Screen initial [] []) es in
  1 <= page (ui s) ∧ ∀ p l, (p, l) ∈ pending s → 1 <= p ∧ l = 30.
Proof.
  cbv zeta.
  destruct (run_history_ok es (Screen initial [] [])) as [Hp Hq].
  { split; [cbn; lia | constructor]. }
  split; [done | ].
  intros p l Hin. rewrite Forall_forall in Hq. exact (Hq _ Hin).
Qed.

(** X11: when a fetch fails, the records, the pagination and the cursor on
    screen stay as they were; both spinners are cleared, the call is no
    longer pending, and one [Error] alert carries the message. *)
Theorem failed_fetch_keeps_list s i c e :
  pending s !! i = Some c →
  let s' := step s (Settle i (Throw e)) in
  records (ui s') = records (ui s)
  ∧ pagination (ui s') = pagination (ui s)
  ∧ page (ui s') = page (ui s)
  ∧ loading (ui s') = false ∧ refreshing (ui s') = false
  ∧ pending s' = delete i (pending s)
  ∧ shown s' = shown s ++ [(lit "Error", message e)].
Proof.
  intros Hi. cbv zeta. unfold step. rewrite Hi.
  rewrite rerender_same by reflexivity. done.
Qed.

(** Reaching the scroll end never moves the cursor past the last page
    the screen knows of, and moves it by at most one page. *)
Theorem load_more_stays_in_range s pg :
  pagination (ui s) = Some pg → page (ui s) <= pg_pages pg →
  page (ui s) <= page (ui (step s EndReached)) <= pg_pages pg
  ∧ page (ui (step s EndReached)) <= page (ui s) + 1.
Proof.
  intros Hpg Hle. unfold step. rewrite rerender_page. unfold loadMore. rewrite Hpg.
  destruct (N.ltb_spec (page (ui s)) (pg_pages pg)); cbn; lia.
Qed.

End HistoryMore.

Lemma failed_fetch_keeps_list_witness :
  let s := EmployeeHistoryScreen.step showing_page1 EmployeeHistoryScreen.EndReached in
  let s' :=
    EmployeeHistoryScreen.step s
      (EmployeeHistoryScreen.Settle 0
         (Throw (new_Error (lit "Failed to fetch attendance")))) in
  EmployeeHistoryScreen.records (EmployeeHistoryScreen.ui s')
  = EmployeeHistoryScreen.records (EmployeeHistoryScreen.ui s)
  ∧ EmployeeHistoryScreen.pagination (EmployeeHistoryScreen.ui s')
    = EmployeeHistoryScreen.pagination (EmployeeHistoryScreen.ui s)
  ∧ EmployeeHistoryScreen.page (EmployeeHistoryScreen.ui s')
    = EmployeeHistoryScreen.page (EmployeeHistoryScreen.ui s)
  ∧ EmployeeHistoryScreen.loading (EmployeeHistoryScreen.ui s') = false
  ∧ EmployeeHistoryScreen.refreshing (EmployeeHistoryScreen.ui s') = false
  ∧ EmployeeHistoryScreen.pending s' = delete 0%nat (EmployeeHistoryScreen.pending s)
  ∧ EmployeeHistoryScreen.shown s'
    = EmployeeHistoryScreen.shown s ++ [(lit "Error", lit "Failed to fetch attendance")].
Proof.
  apply (failed_fetch_keeps_list
           (EmployeeHistoryScreen.step showing_page1 EmployeeHistoryScreen.EndReached)
           0%nat (2, 30) (new_Error (lit "Failed to fetch attendance"))).
  reflexivity.
Defined.

Lemma load_more_stays_in_range_witness :
  EmployeeHistoryScreen.page (EmployeeHistoryScreen.ui showing_page1)
  <= EmployeeHistoryScreen.page
       (EmployeeHistoryScreen.ui
          (EmployeeHistoryScreen.step showing_page1 EmployeeHistoryScreen.EndReached))
  <= pg_pages (PageInfo 1 2 2)
  ∧ EmployeeHistoryScreen.page
      (EmployeeHistoryScreen.ui
         (EmployeeHistoryScreen.step showing_page1 EmployeeHistoryScreen.EndReached))
    <= EmployeeHistoryScreen.page (EmployeeHistoryScreen.ui showing_page1) + 1.
Proof.
  apply (load_more_stays_in_range showing_page1 (PageInfo 1 2 2)); [reflexivity | ].
  vm_compute. discriminate.
Defined.

(** X12: when the calls a pull-to-refresh made settle in the order they
    were made, the screen ends on page 1 with that page's records and
    nothing pending, whatever page was shown before. *)
Theorem refresh_settled_in_order_shows_page_1 s stale d :
  EmployeeHistoryScreen.pending s = [] →
  let s' :=
    EmployeeHistoryScreen.run s
      (EmployeeHistoryScreen.PullToRefresh
         :: (if bool_decide (EmployeeHistoryScreen.page (EmployeeHistoryScreen.ui s) = 1)
             then [] else [EmployeeHistoryScreen.Settle 0 stale])
         ++ [EmployeeHistoryScreen.Settle 0 (Ok d)]) in
  EmployeeHistoryScreen.page (EmployeeHistoryScreen.ui s') = 1
  ∧ EmployeeHistoryScreen.pending s' = []
  ∧ EmployeeHistoryScreen.records (EmployeeHistoryScreen.ui s') = d_records d
  ∧ EmployeeHistoryScreen.pagination (EmployeeHistoryScreen.ui s') = d_pagination d
  ∧ EmployeeHistoryScreen.refreshing (EmployeeHistoryScreen.ui s') = false.
Proof.
  intros Hp. cbv zeta. unfold EmployeeHistoryScreen.run. cbn [foldl].
  destruct (refresh_resets_cursor s) as [Hpage Hpend]. rewrite Hp in Hpend.
  destruct (bool_decide (EmployeeHistoryScreen.page (EmployeeHistoryScreen.ui s) = 1));
    cbn [app foldl] in *.
  - rewrite (settle_head _ _ _ _ Hpend).
    rewrite resume_page, resume_pending, resume_records. done.
  - rewrite (settle_head _ _ _ stale Hpend).
    rewrite (settle_head _ (1, 30) [] (Ok d)) by by rewrite resume_pending.
    rewrite resume_page, resume_pending, resume_records.
    cbn [EmployeeHistoryScreen.ui EmployeeHistoryScreen.pending].
    rewrite resume_page. done.
Qed.

Lemma refresh_settled_in_order_shows_page_1_witness :
  let s' :=
    EmployeeHistoryScreen.run showing_page2
      (EmployeeHistoryScreen.PullToRefresh
         :: (if bool_decide
                  (EmployeeHistoryScreen.page (EmployeeHistoryScreen.ui showing_page2) = 1)
             then [] else [EmployeeHistoryScreen.Settle 0 (Ok page2)])
         ++ [EmployeeHistoryScreen.Settle 0 (Ok page1)]) in
  EmployeeHistoryScreen.page (EmployeeHistoryScreen.ui s') = 1
  ∧ EmployeeHistoryScreen.pending s' = []
  ∧ EmployeeHistoryScreen.records (EmployeeHistoryScreen.ui s') = d_records page1
  ∧ EmployeeHistoryScreen.pagination (EmployeeHistoryScreen.ui s') = d_pagination page1
  ∧ EmployeeHistoryScreen.refreshing (EmployeeHistoryScreen.ui s') = false.
Proof.
  apply (refresh_settled_in_order_shows_page_1 showing_page2 (Ok page2) page1).
  reflexivity.
Defined.


(** ** Registration form *)

Section RegisterMore.

Import AdminRegisterScreen.

Variable server : list request -> request -> net_result.

Lemma truthy_nonempty (v : jsstring) : v ≠ [] → truthy (Some v) = true.
Proof. by destruct v. Qed.

Lemma registerEmployee_world e u w :
  snd (ApiService.registerEmployee server e u w)
  = World (storage w) (sent w ++ [register_request (storage w !! "token") e u]) (alerts w).
Proof.
  unfold_api. unfold register_request. cbv beta iota zeta.
  destruct (startsWith u (lit "data:image/"));
    match goal with |- context [server ?h ?r] => destruct (server h r) end;
    crunch; reflexivity.
Qed.

(** X13: a complete form whose password fails validation is not
    submitted: the form shows [Invalid Password] with the rule that failed,
    no request is made and the form is left as it is. *)
Theorem weak_password_is_not_submitted st uri w msg :
  form_filled st uri → validatePassword (password st) = Some msg →
  handleRegister server (st, w)
  = (Ok tt, (st, World (storage w) (sent w) (alerts w ++ [(lit "Invalid Password", msg)]))).
Proof.
  intros (H1 & H2 & H3 & H4 & H5 & H6) Hv. unfold handleRegister. cbn [fst].
  rewrite H6, !truthy_nonempty by done. cbn [negb orb]. by rewrite Hv.
Qed.

(** X14: a complete form with a valid password is submitted once, to the
    register endpoint, with the form's fields and the captured image.  The
    handler never throws and the form's fields stay filled in; it shows
    [Success] when the call returns and [Registration Failed] with the
    call's message when it throws. *)
Theorem valid_form_is_submitted_once st uri w :
  form_filled st uri → validatePassword (password st) = None →
  let employeeData :=
    ApiService.EmployeeData (employeeId st) (name st) (email st) (password st) (role st) in
  handleRegister server (st, w)
  = (Ok tt,
     (State (employeeId st) (name st) (email st) (password st) (role st)
        (capturedImage st) (capturing st) false (showPassword st),
      World (storage w)
        (sent w ++ [register_request (storage w !! "token") employeeData uri])
        (alerts w
           ++ [match fst (ApiService.registerEmployee server employeeData uri w) with
               | Ok _ => (lit "Success", lit "Employee registered successfully!")
               | Throw error => (lit "Registration Failed", message error)
               end]))).
Proof.
  intros (H1 & H2 & H3 & H4 & H5 & H6) Hv. cbv zeta. unfold handleRegister. cbn [fst].
  rewrite H6, !truthy_nonempty by done. cbn [negb orb]. rewrite Hv.
  unfold try_finally, try_catch, bind, lift, setLoading, modify, Alert_alert.
  cbn [fst snd default from_option id employeeId name email password role capturedImage
         capturing loading showPassword].
  match goal with |- context [ApiService.registerEmployee server ?e uri w] =>
    pose proof (registerEmployee_world e uri w) as Hw;
    destruct (ApiService.registerEmployee server e uri w) as [[d|err] w1] end;
    cbn [fst snd] in *; subst w1; rewrite ?H6; reflexivity.
Qed.

End RegisterMore.

Lemma weak_password_is_not_submitted_witness :
  AdminRegisterScreen.handleRegister accept_all
    (AdminRegisterScreen.State (lit "E1") (lit "Ada") (lit "ada@example.com")
       (lit "alllowercase1") (lit "employee") (Some (lit "file:///face.jpg"))
       false false false, logged_in)
  = (Ok tt,
     (AdminRegisterScreen.State (lit "E1") (lit "Ada") (lit "ada@example.com")
        (lit "alllowercase1") (lit "employee") (Some (lit "file:///face.jpg"))
        false false false,
      World (storage logged_in) (sent logged_in)
        (alerts logged_in
           ++ [(lit "Invalid Password", lit "Password must contain uppercase letter")]))).
Proof.
  apply (weak_password_is_not_submitted accept_all
           (AdminRegisterScreen.State (lit "E1") (lit "Ada") (lit "ada@example.com")
              (lit "alllowercase1") (lit "employee") (Some (lit "file:///face.jpg"))
              false false false)
           (lit "file:///face.jpg") logged_in
           (lit "Password must contain uppercase letter")).
  - repeat split; vm_compute; discriminate.
  - reflexivity.
Defined.

Lemma valid_form_is_submitted_once_witness :
  let st :=
    AdminRegisterScreen.State (lit "E1") (lit "Ada") (lit "ada@example.com")
      (lit "Valid1Pass") (lit "employee") (Some (lit "file:///face.jpg"))
      false false false in
  let employeeData :=
    ApiService.EmployeeData (lit "E1") (lit "Ada") (lit "ada@example.com")
      (lit "Valid1Pass") (lit "employee") in
  AdminRegisterScreen.handleRegister reject_all (st, logged_in)
  = (Ok tt,
     (st,
      World (storage logged_in)
        (sent logged_in
           ++ [register_request (storage logged_in !! "token") employeeData
                 (lit "file:///face.jpg")])
        (alerts logged_in
           ++ [match fst (ApiService.registerEmployee reject_all employeeData
                            (lit "file:///face.jpg") logged_in) with
               | Ok _ => (lit "Success", lit "Employee registered successfully!")
               | Throw error => (lit "Registration Failed", message error)
               end]))).
Proof.
  apply (valid_form_is_submitted_once reject_all
           (AdminRegisterScreen.State (lit "E1") (lit "Ada") (lit "ada@example.com")
              (lit "Valid1Pass") (lit "employee") (Some (lit "file:///face.jpg"))
              false false false)
           (lit "file:///face.jpg") logged_in).
  - repeat split; vm_compute; discriminate.
  - reflexivity.
Defined.

(** ** Login screen *)

Section LoginMore.

Import LoginScreen.

Variable server : list request -> request -> net_result.
Variable undefined_value : string -> exn.
Variable employee_role : data -> exn + option jsstring.

(** X15: with the email or the password empty, signing in only shows the
    fill-in alert: no request is made, nothing is stored, the screen does
    not navigate. *)
Theorem login_needs_both_fields st w :
  email st = [] ∨ password st = [] →
  handleLogin server undefined_value employee_role (st, w)
  = (Ok tt, (st, World (storage w) (sent w)
                   (alerts w ++ [(lit "Error", lit "Please fill in all fields")]))).
Proof.
  intros H. unfold handleLogin. cbn [fst].
  destruct H as [-> | ->]; cbn [truthy negb orb]; rewrite ?orb_true_r; reflexivity.
Qed.

(** X16: when the login call returns and the employee's role can be read,
    the screen is replaced by the admin tabs for the role [admin] and by
    the employee tabs for any other role (or none); the reply's token and
    employee are stored, no alert is shown and the button is enabled
    again. *)
Theorem login_routes_by_role st w d role :
  email st ≠ [] → password st ≠ [] →
  fst (AuthService.login server undefined_value (email st) (password st) w) = Ok d →
  employee_role d = inr role →
  let out := snd (handleLogin server undefined_value employee_role (st, w)) in
  replaced out.1
  = replaced st ++ [if bool_decide (role = Some (lit "admin"))
                    then lit "AdminTabs" else lit "EmployeeTabs"]
  ∧ loading out.1 = false
  ∧ is_Some (d_token d) ∧ storage out.2 !! "token" = d_token d
  ∧ is_Some (d_employee d) ∧ storage out.2 !! "user" = d_employee d
  ∧ alerts out.2 = alerts w.
Proof.
  intros He Hp Hl Hrole. cbv zeta. unfold handleLogin. cbn [fst].
  rewrite !truthy_nonempty by done. cbn [negb orb].
  unfold try_finally, try_catch, bind, lift, await, setLoading, navigation_replace, modify,
    Alert_alert, ret, throw.
  cbn [fst snd email password].
  destruct (login_returned server undefined_value (email st) (password st) w d Hl)
    as (t & u & Ht & Hu & Hs & Ha).
  destruct (AuthService.login server undefined_value (email st) (password st) w)
    as [[d'|e] w1]; cbn [fst snd] in *; [ | done].
  injection Hl as ->. rewrite Hrole, Ht, Hu.
  destruct (bool_decide (role = Some (lit "admin"))); cbn [fst snd replaced loading];
    rewrite Hs; repeat split; eauto; by simplify_map_eq.
Qed.

(** X17: when the login call throws, the screen shows [Login Failed] with
    the error's message and stays where it is: no navigation, no identity
    stored, the button enabled again.  The storage is untouched unless the
    error is the rejected write of the identity, in which case the reply's
    token has been stored. *)
Theorem failed_login_stays_on_screen st w e :
  email st ≠ [] → password st ≠ [] →
  fst (AuthService.login server undefined_value (email st) (password st) w) = Throw e →
  let out := snd (handleLogin server undefined_value employee_role (st, w)) in
  fst (handleLogin server undefined_value employee_role (st, w)) = Ok tt
  ∧ out.1 = State (email st) (password st) false (showPassword st) (replaced st)
  ∧ storage out.2 !! "user" = storage w !! "user"
  ∧ (storage out.2 = storage w
     ∨ ∃ t, storage out.2 = <["token" := t]> (storage w) ∧ e = undefined_value "user")
  ∧ alerts out.2 = alerts w ++ [(lit "Login Failed", message e)].
Proof.
  intros He Hp Hl. cbv zeta. unfold handleLogin. cbn [fst].
  rewrite !truthy_nonempty by done. cbn [negb orb].
  unfold try_finally, try_catch, bind, lift, await, setLoading, navigation_replace, modify,
    Alert_alert, ret, throw.
  cbn [fst snd email password].
  destruct (login_threw server undefined_value (email st) (password st) w e Hl)
    as (H1 & _ & H2 & H3).
  destruct (AuthService.login server undefined_value (email st) (password st) w)
    as [[d'|e'] w1]; cbn [fst snd] in *; [done | ].
  injection Hl as ->. rewrite H1. done.
Qed.

End LoginMore.

Lemma login_needs_both_fields_witness :
  LoginScreen.handleLogin accept_all rejects_undefined (fun _ => inr None)
    (LoginScreen.State (lit "ada@example.com") [] false false [], no_session)
  = (Ok tt,
     (LoginScreen.State (lit "ada@example.com") [] false false [],
      World (storage no_session) (sent no_session)
        (alerts no_session ++ [(lit "Error", lit "Please fill in all fields")]))).
Proof.
  apply (login_needs_both_fields accept_all rejects_undefined (fun _ => inr None)
           (LoginScreen.State (lit "ada@example.com") [] false false []) no_session).
  right. reflexivity.
Defined.

Lemma login_routes_by_role_witness :
  let out :=
    snd (LoginScreen.handleLogin sign_in rejects_undefined
           (fun _ => inr (Some (lit "admin")))
           (LoginScreen.State (lit "ada@example.com") (lit "pw") false false [],
            no_session)) in
  LoginScreen.replaced out.1
  = [] ++ [if bool_decide (Some (lit "admin") = Some (lit "admin"))
           then lit "AdminTabs" else lit "EmployeeTabs"]
  ∧ LoginScreen.loading out.1 = false
  ∧ is_Some (d_token session_reply)
  ∧ storage out.2 !! "token" = d_token session_reply
  ∧ is_Some (d_employee session_reply)
  ∧ storage out.2 !! "user" = d_employee session_reply
  ∧ alerts out.2 = alerts no_session.
Proof.
  apply (login_routes_by_role sign_in rejects_undefined
           (fun _ => inr (Some (lit "admin")))
           (LoginScreen.State (lit "ada@example.com") (lit "pw") false false [])
           no_session session_reply (Some (lit "admin")));
    try reflexivity; vm_compute; discriminate.
Defined.

Lemma failed_login_stays_on_screen_witness :
  let st := LoginScreen.State (lit "ada@example.com") (lit "pw") false false [] in
  let out :=
    snd (LoginScreen.handleLogin reject_all rejects_undefined (fun _ => inr None)
           (st, no_session)) in
  fst (LoginScreen.handleLogin reject_all rejects_undefined (fun _ => inr None)
         (st, no_session)) = Ok tt
  ∧ out.1 = LoginScreen.State (lit "ada@example.com") (lit "pw") false false []
  ∧ storage out.2 !! "user" = storage no_session !! "user"
  ∧ (storage out.2 = storage no_session
     ∨ ∃ t, storage out.2 = <["token" := t]> (storage no_session)
          ∧ new_Error (lit "Login failed") = rejects_undefined "user")
  ∧ alerts out.2 = alerts no_session ++ [(lit "Login Failed", lit "Login failed")].
Proof.
  apply (failed_login_stays_on_screen reject_all rejects_undefined (fun _ => inr None)
           (LoginScreen.State (lit "ada@example.com") (lit "pw") false false [])
           no_session (new_Error (lit "Login failed")));
    try reflexivity; vm_compute; discriminate.
Defined.

(** ** Profile screen *)

Section ProfileMore.

Import ProfileScreen.

Variable server : list request -> request -> net_result.
Variable JSON_parse : jsstring -> exn + jsvalue.
Variable user_role : option jsvalue -> exn + option jsstring.

(** X18: loading the profile never throws and never shows an alert,
    whatever fails; it always ends the loading state and leaves the session
    store alone.  When the stored identity is not JSON, the user on screen
    is left as it was and nothing is requested.  Otherwise the user becomes
    the parsed identity ([null] when none is stored) and the profile is
    requested once, unless the role is [admin] or cannot be read. *)
Theorem profile_load_is_silent st w :
  let out := snd (loadProfile server JSON_parse user_role (st, w)) in
  let fetched userData :=
    match user_role userData with
    | inr role =>
        if bool_decide (role = Some (lit "admin")) then []
        else [Request (API_URL ++ lit "/api/employee/profile") None
                [(lit "Authorization", lit "Bearer " ++ interp (storage w !! "token"))]
                NoBody]
    | inl _ => []
    end in
  fst (loadProfile server JSON_parse user_role (st, w)) = Ok tt
  ∧ loading out.1 = false
  ∧ storage out.2 = storage w
  ∧ alerts out.2 = alerts w
  ∧ match storage w !! "user" with
    | Some (c :: text) =>
        match JSON_parse (c :: text) with
        | inr parsed => user out.1 = Some parsed ∧ sent out.2 = sent w ++ fetched (Some parsed)
        | inl _ => user out.1 = user st ∧ sent out.2 = sent w
        end
    | _ => user out.1 = None ∧ sent out.2 = sent w ++ fetched None
    end.
Proof.
  cbv zeta.
  unfold loadProfile, AuthService.getUser, AsyncStorage.getItem.
  unfold try_finally, try_catch, bind, lift, await, setUser, setProfile,
    setLoading, modify, ret, throw.
  cbn [fst snd].
  destruct (storage w !! "user") as [[|c text]|] eqn:Huser;
    cbn [truthy interp default from_option id fst snd negb
         loading user profile replaced storage alerts sent].
  2: destruct (JSON_parse (c :: text)) as [e|parsed];
       cbn [fst snd loading user profile replaced storage alerts sent];
       [done|].
  all: destruct (user_role _) as [e|role];
         cbn [fst snd loading user profile replaced storage alerts sent];
         [by rewrite app_nil_r|].
  all: destruct (bool_decide (role = Some (lit "admin")));
         cbn [negb fst snd loading user profile replaced storage alerts sent];
         [by rewrite app_nil_r|].
  all: unfold_api; cbv beta iota zeta; rewrite ?Huser.
  all: match goal with |- context [server ?h ?r] => destruct (server h r) end;
         crunch; done.
Qed.

(** Confirming the logout clears the stored token and identity and
    replaces the screen by the login screen; it makes no request and shows
    no alert. *)
Theorem confirmed_logout_returns_to_login st w :
  let out := snd (handleLogout_confirmed (st, w)) in
  fst (handleLogout_confirmed (st, w)) = Ok tt
  ∧ replaced out.1 = replaced st ++ [lit "Login"]
  ∧ storage out.2 !! "token" = None
  ∧ storage out.2 !! "user" = None
  ∧ sent out.2 = sent w
  ∧ alerts out.2 = alerts w.
Proof.
  cbv zeta.
  unfold handleLogout_confirmed, bind, lift, navigation_replace, modify,
    AuthService.logout, AsyncStorage.removeItem.
  cbn [fst snd replaced storage sent alerts]. repeat split; by simplify_map_eq.
Qed.

End ProfileMore.

(** ** Shift form *)

Section ShiftFormMore.

Import ShiftFormScreen.

Variable server : list request -> request -> net_result.

(** X19: toggling a day flips whether that day is selected and changes the
    selection of no other day. *)
Theorem toggleDay_flips_one_day day d (l : list jsstring) :
  d ∈ toggleDay day l ↔ (if bool_decide (d = day) then d ∉ l else d ∈ l).
Proof.
  unfold toggleDay. case_bool_decide as Hin; case_bool_decide as Hd; subst.
  - rewrite list_elem_of_filter. tauto.
  - rewrite list_elem_of_filter. tauto.
  - rewrite elem_of_app, list_elem_of_singleton. tauto.
  - rewrite elem_of_app, list_elem_of_singleton. tauto.
Qed.

Lemma filter_other_days day (l : list jsstring) :
  day ∉ l → filter (fun d => d ≠ day) l = l.
Proof.
  induction l as [|x l IH]; intros Hn; [done | ].
  apply not_elem_of_cons in Hn as [Hx Hl].
  rewrite filter_cons_True by done. by rewrite IH.
Qed.

Lemma filter_day_back day (l : list jsstring) :
  NoDup l → day ∈ l → filter (fun d => d ≠ day) l ++ [day] ≡ₚ l.
Proof.
  induction l as [|x l IH]; intros Hnd Hin; [by apply elem_of_nil in Hin | ].
  apply NoDup_cons in Hnd as [Hx Hnd].
  destruct (decide (x = day)) as [-> | Hne].
  - rewrite filter_cons_False by tauto.
    rewrite filter_other_days by done. by rewrite Permutation_app_comm.
  - rewrite filter_cons_True by done. cbn [app]. f_equiv. apply IH; [done | ].
    apply elem_of_cons in Hin as [-> | Hin]; done.
Qed.

(** X20: on a selection without repeats, toggling keeps it without
    repeats and keeps the other days in their order; toggling the same day
    twice gives back the same days, the very same list when the day was not
    selected, and with the day moved to the end when it was. *)
Theorem toggleDay_twice day (l : list jsstring) :
  NoDup l →
  NoDup (toggleDay day l)
  ∧ filter (fun d => d ≠ day) (toggleDay day l) = filter (fun d => d ≠ day) l
  ∧ toggleDay day (toggleDay day l) ≡ₚ l
  ∧ (day ∉ l → toggleDay day (toggleDay day l) = l)
  ∧ (day ∈ l → toggleDay day (toggleDay day l) = filter (fun d => d ≠ day) l ++ [day]).
Proof.
  intros Hnd.
  assert (Hf : day ∉ filter (fun d => d ≠ day) l).
  { rewrite list_elem_of_filter. tauto. }
  assert (Ha : day ∈ l ++ [day]).
  { rewrite elem_of_app, list_elem_of_singleton. by right. }
  destruct (decide (day ∈ l)) as [Hin|Hin].
  - assert (H1 : toggleDay day l = filter (fun d => d ≠ day) l).
    { unfold toggleDay. by rewrite bool_decide_eq_true_2. }
    assert (H2 : toggleDay day (filter (fun d => d ≠ day) l)
                 = filter (fun d => d ≠ day) l ++ [day]).
    { unfold toggleDay. by rewrite bool_decide_eq_false_2. }
    rewrite H1, H2. repeat split.
    + by apply NoDup_filter.
    + rewrite list_filter_filter. apply list_filter_iff. tauto.
    + by apply filter_day_back.
    + done.
  - assert (H1 : toggleDay day l = l ++ [day]).
    { unfold toggleDay. by rewrite bool_decide_eq_false_2. }
    assert (H2 : toggleDay day (l ++ [day]) = l).
    { unfold toggleDay. rewrite bool_decide_eq_true_2 by done.
      rewrite filter_app, filter_singleton_False by tauto.
      by rewrite app_nil_r, filter_other_days. }
    rewrite H1, H2. repeat split; try done.
    + apply NoDup_app. repeat split; [done | | apply NoDup_singleton].
      intros x Hx ->%list_elem_of_singleton. done.
    + rewrite filter_app, filter_singleton_False by tauto. by rewrite app_nil_r.
Qed.
(** X21: without a name or without a selected day the form is not saved:
    only the required-fields alert is shown. *)
Theorem incomplete_shift_is_not_saved shift st w :
  shiftName st = [] ∨ selectedDays st = [] →
  handleSave server shift (st, w)
  = (Ok tt, (st, World (storage w) (sent w)
                   (alerts w ++ [(lit "Error", lit "Please fill all required fields")]))).
Proof.
  intros H. unfold handleSave. cbn [fst].
  destruct H as [-> | ->]; cbn [truthy negb orb length];
    rewrite ?bool_decide_eq_true_2, ?orb_true_r by done; reflexivity.
Qed.

(** X22: a form with a name and at least one day is saved with one
    request: a PUT to the edited shift, or a POST creating a shift, with
    the eight form fields as text and the days joined by commas.  The
    handler never throws; it goes back only when the call returned, and
    shows the call's message when it threw. *)
Theorem complete_shift_is_saved_once shift st w :
  shiftName st ≠ [] → selectedDays st ≠ [] →
  handleSave server shift (st, w)
  = (Ok tt,
     (State (shiftName st) (startTime st) (endTime st) (checkInStart st) (checkInEnd st)
        (checkOutStart st) (checkOutEnd st) (selectedDays st) false
        (match fst (call server (save_call shift st) w) with
         | Ok _ => true
         | Throw _ => wentBack st
         end),
      World (storage w)
        (sent w ++ [save_request (storage w !! "token") shift st])
        (alerts w
           ++ [match fst (call server (save_call shift st) w), shift with
               | Ok _, Some _ => (lit "Success", lit "Shift updated successfully")
               | Ok _, None => (lit "Success", lit "Shift created successfully")
               | Throw error, _ => (lit "Error", message error)
               end]))).
Proof.
  intros Hn Hd. unfold handleSave. cbn [fst].
  rewrite truthy_nonempty by done.
  rewrite bool_decide_eq_false_2 by (by destruct (selectedDays st)).
  cbn [negb orb].
  unfold try_finally, try_catch, bind, lift, setLoading, navigation_goBack, modify,
    Alert_alert.
  unfold save_call, save_request, shift_form_fields.
  destruct shift as [sh|]; cbn [call fst snd].
  - unfold_api. cbv beta iota zeta. rewrite append_all_fmap. cbn [app fst snd].
    match goal with |- context [server ?h ?r] => destruct (server h r) end;
      crunch; reflexivity.
  - unfold_api. cbv beta iota zeta. rewrite append_all_fmap. cbn [app fst snd].
    match goal with |- context [server ?h ?r] => destruct (server h r) end;
      crunch; reflexivity.
Qed.

End ShiftFormMore.

(** ** Shift assignment *)

Section AssignMore.

Import AssignShiftScreen.

Variable server : list request -> request -> net_result.

(** X23: with no shift selected (none, or the id 0), assigning only shows
    the select-a-shift alert and makes no request. *)
Theorem assignment_needs_a_shift employee_id st w :
  selectedShift st = None ∨ selectedShift st = Some 0 →
  handleAssign server employee_id (st, w)
  = (Ok tt, (st, World (storage w) (sent w)
                   (alerts w ++ [(lit "Error", lit "Please select a shift")]))).
Proof.
  intros H. unfold handleAssign. cbn [fst]. by destruct H as [-> | ->].
Qed.

(** X24: with a shift selected, assigning makes one request carrying the
    shift id and the start date; the end date is sent only when it is not
    empty, so an empty end date leaves the assignment open-ended.  The
    handler never throws and always ends the saving state. *)
Theorem assignment_is_sent_once employee_id st w p :
  selectedShift st = Some (N.pos p) →
  let out := handleAssign server employee_id (st, w) in
  fst out = Ok tt
  ∧ (snd out).1 = State (selectedShift st) (effectiveFrom st) (effectiveTo st) (loading st)
                    false
  ∧ storage (snd out).2 = storage w
  ∧ sent (snd out).2
    = sent w ++ [assign_request (storage w !! "token") employee_id (N.pos p)
                   (effectiveFrom st) (effectiveTo st)]
  ∧ ∃ a, alerts (snd out).2 = alerts w ++ [a].
Proof.
  intros Hs. cbv zeta. unfold handleAssign. cbn [fst]. rewrite Hs. cbn [no_shift].
  unfold try_finally, try_catch, bind, lift, setSaving, modify, Alert_alert.
  unfold assign_request. cbn [fst snd default from_option id].
  unfold_api. cbv beta iota zeta.
  destruct (effectiveTo st) as [|c t] eqn:Ht; cbn [truthy interp app];
    match goal with |- context [server ?h ?r] => destruct (server h r) end;
    crunch; cbn [fst snd selectedShift effectiveFrom effectiveTo loading saving
                   storage sent alerts];
    rewrite ?Hs, ?Ht; repeat split; by eexists.
Qed.

End AssignMore.

(** ** Employee list actions *)

Section EmployeesMore.

Import AdminEmployeesScreen.

Variable server : list request -> request -> net_result.
Variable data_employees : data -> option (list employee).

Lemma loadEmployees_outcome st w :
  fst (loadEmployees server data_employees (st, w)) = Ok tt
  ∧ sent (snd (loadEmployees server data_employees (st, w))).2
    = sent w ++ [employees_request (storage w !! "token") (page st)]
  ∧ storage (snd (loadEmployees server data_employees (st, w))).2 = storage w.
Proof.
  unfold loadEmployees, try_finally, try_catch, bind, lift, setEmployees, setPagination,
    setLoading, setRefreshing, modify, Alert_alert, employees_request.
  cbn [fst snd]. unfold_api. cbv beta iota zeta.
  match goal with |- context [server ?h ?r] => destruct (server h r) end;
    crunch; done.
Qed.

(** X25: confirming a status change asks the backend for the opposite of
    the employee's current status.  When that call throws, the handler
    shows the error and stops: the list on screen is untouched and not
    reloaded.  When it returns, the current page of the list is requested
    again.  The handler itself never throws. *)
Theorem status_toggle_sends_opposite employee st w :
  let out := handleToggleStatus_confirmed server data_employees employee (st, w) in
  fst out = Ok tt
  ∧ match fst (ApiService.updateEmployeeStatus server (emp_id employee)
                 (negb (is_active employee)) w) with
    | Ok _ =>
        sent (snd out).2
        = sent w ++ [status_change_request (storage w !! "token") (emp_id employee)
                       (negb (is_active employee));
                     employees_request (storage w !! "token") (page st)]
    | Throw error =>
        snd out
        = (st, World (storage w)
                 (sent w ++ [status_change_request (storage w !! "token") (emp_id employee)
                               (negb (is_active employee))])
                 (alerts w ++ [(lit "Error", message error)]))
    end.
Proof.
  cbv zeta. unfold handleToggleStatus_confirmed, try_catch, bind, lift, Alert_alert.
  cbn [fst snd].
  assert (Hw : snd (ApiService.updateEmployeeStatus server (emp_id employee)
                      (negb (is_active employee)) w)
               = World (storage w)
                   (sent w ++ [status_change_request (storage w !! "token") (emp_id employee)
                                 (negb (is_active employee))])
                   (alerts w)).
  { unfold_api. unfold status_change_request, interp_bool. cbv beta iota zeta.
    match goal with |- context [server ?h ?r] => destruct (server h r) end;
      crunch; reflexivity. }
  destruct (ApiService.updateEmployeeStatus server (emp_id employee)
              (negb (is_active employee)) w) as [[d|e] w1];
    cbn [fst snd] in *; subst w1; [ | done].
  cbn [storage sent alerts].
  match goal with |- context [loadEmployees server data_employees (?a, ?b)] =>
    destruct (loadEmployees_outcome a b) as (H1 & H2 & _);
    destruct (loadEmployees server data_employees (a, b)) as [[[]|e] [st1 w1]] end;
    cbn [fst snd sent storage] in *; [ | done].
  split; [done | ]. rewrite H2, <- app_assoc. reflexivity.
Qed.

(** X26: confirming a deletion sends one DELETE for that employee.  When
    it throws, the handler shows the error and stops without reloading;
    when it returns, the current page of the list is requested again.  The
    handler itself never throws. *)
Theorem deletion_reloads_on_success employee st w :
  let out := handleDelete_confirmed server data_employees employee (st, w) in
  fst out = Ok tt
  ∧ match fst (ApiService.deleteEmployee server (emp_id employee) w) with
    | Ok _ =>
        sent (snd out).2
        = sent w ++ [deletion_request (storage w !! "token") (emp_id employee);
                     employees_request (storage w !! "token") (page st)]
    | Throw error =>
        snd out
        = (st, World (storage w)
                 (sent w ++ [deletion_request (storage w !! "token") (emp_id employee)])
                 (alerts w ++ [(lit "Error", message error)]))
    end.
Proof.
  cbv zeta. unfold handleDelete_confirmed, try_catch, bind, lift, Alert_alert.
  cbn [fst snd].
  assert (Hw : snd (ApiService.deleteEmployee server (emp_id employee) w)
               = World (storage w)
                   (sent w ++ [deletion_request (storage w !! "token") (emp_id employee)])
                   (alerts w)).
  { unfold_api. unfold deletion_request. cbv beta iota zeta.
    match goal with |- context [server ?h ?r] => destruct (server h r) end;
      crunch; reflexivity. }
  destruct (ApiService.deleteEmployee server (emp_id employee) w) as [[d|e] w1];
    cbn [fst snd] in *; subst w1; [ | done].
  cbn [storage sent alerts].
  match goal with |- context [loadEmployees server data_employees (?a, ?b)] =>
    destruct (loadEmployees_outcome a b) as (H1 & H2 & _);
    destruct (loadEmployees server data_employees (a, b)) as [[[]|e] [st1 w1]] end;
    cbn [fst snd sent storage] in *; [ | done].
  split; [done | ]. rewrite H2, <- app_assoc. reflexivity.
Qed.

End EmployeesMore.

(** ** Attendance screen *)

Section AttendanceMore.

Import AdminAttendanceScreen.

Lemma loadRecords_pending rendered s :
  pending (loadRecords rendered s) = pending s ++ [query_of rendered].
Proof.
  unfold loadRecords, query_of, filter_argument. cbn [pending setLoading set].
  by destruct (employeeIdFilter rendered).
Qed.

Lemma loadRecords_ui rendered s :
  ui (loadRecords rendered s)
  = State (records (ui s)) (pagination (ui s)) true (refreshing (ui s))
      (selectedDate (ui s)) (page (ui s)) (filterModalVisible (ui s))
      (employeeIdFilter (ui s)).
Proof. reflexivity. Qed.

Lemma rerender_pending_att rendered s :
  pending (rerender rendered s)
  = pending s ++
    (if bool_decide (selectedDate (ui s) = selectedDate rendered)
        && bool_decide (page (ui s) = page rendered)
     then [] else [query_of (ui s)]).
Proof.
  unfold rerender.
  destruct (bool_decide (selectedDate (ui s) = selectedDate rendered)
            && bool_decide (page (ui s) = page rendered)).
  - by rewrite app_nil_r.
  - apply loadRecords_pending.
Qed.

Lemma rerender_fields rendered s :
  page (ui (rerender rendered s)) = page (ui s)
  ∧ selectedDate (ui (rerender rendered s)) = selectedDate (ui s)
  ∧ employeeIdFilter (ui (rerender rendered s)) = employeeIdFilter (ui s)
  ∧ filterModalVisible (ui (rerender rendered s)) = filterModalVisible (ui s).
Proof.
  unfold rerender.
  by destruct (bool_decide (selectedDate (ui s) = selectedDate rendered)
               && bool_decide (page (ui s) = page rendered)).
Qed.

(** X27: Clear Filters empties the filter, selects today and page 1 and
    closes the dialog, but the request it makes at once is the one of the
    screen it was pressed on: the old date, the old filter and the old
    page.  A request with the cleared filter follows only when the date or
    the page actually changed. *)
Theorem clear_filters_requests_old_query today s :
  let s' := step s (ClearFilter today) in
  employeeIdFilter (ui s') = []
  ∧ selectedDate (ui s') = today
  ∧ page (ui s') = 1
  ∧ filterModalVisible (ui s') = false
  ∧ pending s'
    = pending s ++ query_of (ui s)
        :: (if bool_decide (today = selectedDate (ui s)) && bool_decide (1 = page (ui s))
            then [] else [Query (Some today) None 1 50]).
Proof.
  cbv zeta. unfold step.
  destruct (rerender_fields (ui s) (clearFilter today (ui s) s)) as (-> & -> & -> & ->).
  rewrite rerender_pending_att.
  unfold clearFilter. rewrite loadRecords_pending, loadRecords_ui.
  cbn [ui pending set setEmployeeIdFilter setSelectedDate setPage setFilterModalVisible
         page selectedDate employeeIdFilter filterModalVisible].
  repeat split; try reflexivity.
  all: rewrite <- app_assoc; cbn [app]; do 2 f_equal;
    by destruct (bool_decide (today = selectedDate (ui s))
                 && bool_decide (1 = page (ui s))).
Qed.

(** X28: Apply requests the current page with the filter typed in and,
    unless the screen was on page 1 already, page 1 after it; the cursor
    ends on page 1 and the dialog is closed. *)
Theorem apply_filter_requests s :
  let s' := step s ApplyFilter in
  page (ui s') = 1
  ∧ filterModalVisible (ui s') = false
  ∧ employeeIdFilter (ui s') = employeeIdFilter (ui s)
  ∧ pending s'
    = pending s ++ query_of (ui s)
        :: (if bool_decide (page (ui s) = 1) then []
            else [Query (Some (selectedDate (ui s)))
                    (filter_argument (employeeIdFilter (ui s))) 1 50]).
Proof.
  cbv zeta. unfold step.
  destruct (rerender_fields (ui s) (applyFilter (ui s) s)) as (-> & _ & -> & ->).
  rewrite rerender_pending_att.
  unfold applyFilter. rewrite loadRecords_pending, loadRecords_ui.
  cbn [ui pending set setPage setFilterModalVisible
         page selectedDate employeeIdFilter filterModalVisible].
  repeat split; try reflexivity.
  all: rewrite <- app_assoc; cbn [app]; do 2 f_equal;
    rewrite bool_decide_eq_true_2 by done; cbn [andb];
    case_bool_decide as H1; case_bool_decide as H2; try done; congruence.
Qed.

(** X29: picking a date in the header selects it, returns to page 1 and
    makes exactly one request, for that date, the current filter and page
    1; picking the date already shown on page 1 makes none.  Picking a date
    in the filter dialog requests it for the page the screen is on, without
    returning to page 1. *)
Theorem date_change_requests date s :
  (let s' := step s (HeaderDate date) in
   selectedDate (ui s') = date ∧ page (ui s') = 1
   ∧ pending s'
     = pending s ++
       (if bool_decide (date = selectedDate (ui s)) && bool_decide (1 = page (ui s))
        then []
        else [Query (Some date) (filter_argument (employeeIdFilter (ui s))) 1 50]))
  ∧ (let s' := step s (ModalDate date) in
     selectedDate (ui s') = date ∧ page (ui s') = page (ui s)
     ∧ pending s'
       = pending s ++
         (if bool_decide (date = selectedDate (ui s)) then []
          else [Query (Some date) (filter_argument (employeeIdFilter (ui s)))
                  (page (ui s)) 50])).
Proof.
  split; cbv zeta; unfold step.
  - destruct (rerender_fields (ui s) (onDateChange date s)) as (-> & -> & _).
    rewrite rerender_pending_att. done.
  - destruct (rerender_fields (ui s) (setSelectedDate date s)) as (-> & -> & _).
    rewrite rerender_pending_att.
    cbn [ui pending set setSelectedDate page selectedDate].
    rewrite (bool_decide_eq_true_2 (page (ui s) = page (ui s))) by done.
    by rewrite andb_true_r.
Qed.

End AttendanceMore.

Section AttendanceInvariant.

Import AdminAttendanceScreen.

Lemma query_of_ok u :
  1 <= page u →
  is_Some (q_date (query_of u)) ∧ 1 <= q_page (query_of u) ∧ q_limit (query_of u) = 50.
Proof. intros H. unfold query_of. cbn. eauto. Qed.

Lemma rerender_attendance_ok rendered s :
  attendance_ok s → attendance_ok (rerender rendered s).
Proof.
  intros [Hp Hq]. unfold attendance_ok.
  destruct (rerender_fields rendered s) as (-> & _).
  split; [done | ]. rewrite rerender_pending_att.
  apply Forall_app. split; [done | ].
  destruct (_ && _); [constructor | ].
  apply Forall_singleton. by apply query_of_ok.
Qed.

Lemma loadRecords_attendance_ok rendered s :
  1 <= page rendered → attendance_ok s → attendance_ok (loadRecords rendered s).
Proof.
  intros Hr [Hp Hq]. unfold attendance_ok.
  rewrite loadRecords_pending, loadRecords_ui. cbn [page].
  split; [done | ]. apply Forall_app. split; [done | ].
  apply Forall_singleton. by apply query_of_ok.
Qed.

Lemma set_attendance_ok f s :
  1 <= page (f (ui s)) → attendance_ok s → attendance_ok (set f s).
Proof. intros Hf [Hp Hq]. by split. Qed.

Lemma step_attendance_ok s e : attendance_ok s → attendance_ok (step s e).
Proof.
  intros Hs. pose proof Hs as [Hp Hq]. unfold step.
  destruct e as [ | | |date| | |text|date| |today|i r];
    try apply rerender_attendance_ok.
  - by apply loadRecords_attendance_ok.
  - apply loadRecords_attendance_ok; [done | ].
    unfold setPage, setRefreshing. by repeat apply set_attendance_ok.
  - unfold onEndReached. destruct (pagination (ui s)) as [pg|]; [ | done].
    destruct (page (ui s) <? pg_pages pg); [ | done].
    apply set_attendance_ok; [cbn; lia | done].
  - unfold onDateChange, setPage, setSelectedDate. by repeat apply set_attendance_ok.
  - by apply set_attendance_ok.
  - by apply set_attendance_ok.
  - by apply set_attendance_ok.
  - by apply set_attendance_ok.
  - apply loadRecords_attendance_ok; [done | ].
    unfold applyFilter, setPage, setFilterModalVisible. by repeat apply set_attendance_ok.
  - apply loadRecords_attendance_ok; [done | ].
    unfold setPage, setFilterModalVisible, setSelectedDate, setEmployeeIdFilter.
    by repeat apply set_attendance_ok.
  - destruct (pending s !! i); [ | done]. apply rerender_attendance_ok.
    unfold loadRecords_resume, setRefreshing, setLoading, setPagination, setRecords.
    destruct r; repeat apply set_attendance_ok; try done.
    all: split; [done | ]; by apply Forall_delete.
Qed.

(** X30: from a fresh attendance screen, whatever the user does and
    however the calls settle, the page cursor never drops below 1 and every
    call the screen makes names a date and asks for a page from 1 upwards,
    50 records at a time. *)
Theorem attendance_requests_are_pages today es :
  let s := run (Screen (initial today) [] []) es in
  1 <= page (ui s)
  ∧ ∀ q, q ∈ pending s → is_Some (q_date q) ∧ 1 <= q_page q ∧ q_limit q = 50.
Proof.
  cbv zeta.
  assert (H : ∀ s, attendance_ok s → attendance_ok (run s es)).
  { unfold run. induction es as [|e es IH]; intros s H0; cbn [foldl]; [done | ].
    apply IH. by apply step_attendance_ok. }
  destruct (H (Screen (initial today) [] [])) as [Hp Hq].
  { split; [cbn; lia | constructor]. }
  split; [done | ]. intros q Hin. rewrite Forall_forall in Hq. exact (Hq _ Hin).
Qed.

End AttendanceInvariant.

(** ** Instances *)

Lemma toggleDay_twice_witness :
  NoDup (ShiftFormScreen.toggleDay (lit "Tue") [lit "Mon"; lit "Tue"; lit "Wed"])
  ∧ filter (fun d => d ≠ lit "Tue")
      (ShiftFormScreen.toggleDay (lit "Tue") [lit "Mon"; lit "Tue"; lit "Wed"])
    = filter (fun d => d ≠ lit "Tue") [lit "Mon"; lit "Tue"; lit "Wed"]
  ∧ ShiftFormScreen.toggleDay (lit "Tue")
      (ShiftFormScreen.toggleDay (lit "Tue") [lit "Mon"; lit "Tue"; lit "Wed"])
    ≡ₚ [lit "Mon"; lit "Tue"; lit "Wed"]
  ∧ (lit "Tue" ∉ [lit "Mon"; lit "Tue"; lit "Wed"] →
     ShiftFormScreen.toggleDay (lit "Tue")
       (ShiftFormScreen.toggleDay (lit "Tue") [lit "Mon"; lit "Tue"; lit "Wed"])
     = [lit "Mon"; lit "Tue"; lit "Wed"])
  ∧ (lit "Tue" ∈ [lit "Mon"; lit "Tue"; lit "Wed"] →
     ShiftFormScreen.toggleDay (lit "Tue")
       (ShiftFormScreen.toggleDay (lit "Tue") [lit "Mon"; lit "Tue"; lit "Wed"])
     = filter (fun d => d ≠ lit "Tue") [lit "Mon"; lit "Tue"; lit "Wed"] ++ [lit "Tue"]).
Proof.
  apply (toggleDay_twice (lit "Tue") [lit "Mon"; lit "Tue"; lit "Wed"]).
  apply (@bool_decide_unpack _ (NoDup_dec _)). vm_compute. exact I.
Defined.

Lemma incomplete_shift_is_not_saved_witness :
  ShiftFormScreen.handleSave accept_all None
    (ShiftFormScreen.State (lit "Morning") (lit "08:00") (lit "16:00") (lit "07:00")
       (lit "08:30") (lit "15:30") (lit "17:00") [] false false, logged_in)
  = (Ok tt,
     (ShiftFormScreen.State (lit "Morning") (lit "08:00") (lit "16:00") (lit "07:00")
        (lit "08:30") (lit "15:30") (lit "17:00") [] false false,
      World (storage logged_in) (sent logged_in)
        (alerts logged_in ++ [(lit "Error", lit "Please fill all required fields")]))).
Proof.
  apply (incomplete_shift_is_not_saved accept_all None
           (ShiftFormScreen.State (lit "Morning") (lit "08:00") (lit "16:00") (lit "07:00")
              (lit "08:30") (lit "15:30") (lit "17:00") [] false false) logged_in).
  right. reflexivity.
Defined.

Lemma complete_shift_is_saved_once_witness :
  let st := ShiftFormScreen.initial None in
  let st := ShiftFormScreen.State (lit "Morning") (ShiftFormScreen.startTime st)
              (ShiftFormScreen.endTime st) (ShiftFormScreen.checkInStart st)
              (ShiftFormScreen.checkInEnd st) (ShiftFormScreen.checkOutStart st)
              (ShiftFormScreen.checkOutEnd st) (ShiftFormScreen.selectedDays st)
              false false in
  ShiftFormScreen.handleSave accept_all None (st, logged_in)
  = (Ok tt,
     (ShiftFormScreen.State (ShiftFormScreen.shiftName st) (ShiftFormScreen.startTime st)
        (ShiftFormScreen.endTime st) (ShiftFormScreen.checkInStart st)
        (ShiftFormScreen.checkInEnd st) (ShiftFormScreen.checkOutStart st)
        (ShiftFormScreen.checkOutEnd st) (ShiftFormScreen.selectedDays st) false
        (match fst (call accept_all (save_call None st) logged_in) with
         | Ok _ => true
         | Throw _ => ShiftFormScreen.wentBack st
         end),
      World (storage logged_in)
        (sent logged_in ++ [save_request (storage logged_in !! "token") None st])
        (alerts logged_in
           ++ [match fst (call accept_all (save_call None st) logged_in),
                     @None ShiftFormScreen.shift with
               | Ok _, Some _ => (lit "Success", lit "Shift updated successfully")
               | Ok _, None => (lit "Success", lit "Shift created successfully")
               | Throw error, _ => (lit "Error", message error)
               end]))).
Proof.
  cbv zeta.
  apply (complete_shift_is_saved_once accept_all None
           (ShiftFormScreen.State (lit "Morning")
              (ShiftFormScreen.startTime (ShiftFormScreen.initial None))
              (ShiftFormScreen.endTime (ShiftFormScreen.initial None))
              (ShiftFormScreen.checkInStart (ShiftFormScreen.initial None))
              (ShiftFormScreen.checkInEnd (ShiftFormScreen.initial None))
              (ShiftFormScreen.checkOutStart (ShiftFormScreen.initial None))
              (ShiftFormScreen.checkOutEnd (ShiftFormScreen.initial None))
              (ShiftFormScreen.selectedDays (ShiftFormScreen.initial None))
              false false) logged_in); vm_compute; discriminate.
Defined.

Lemma assignment_needs_a_shift_witness :
  AssignShiftScreen.handleAssign accept_all (lit "E1")
    (AssignShiftScreen.State None (lit "2025-01-01") [] false false, logged_in)
  = (Ok tt,
     (AssignShiftScreen.State None (lit "2025-01-01") [] false false,
      World (storage logged_in) (sent logged_in)
        (alerts logged_in ++ [(lit "Error", lit "Please select a shift")]))).
Proof.
  apply (assignment_needs_a_shift accept_all (lit "E1")
           (AssignShiftScreen.State None (lit "2025-01-01") [] false false) logged_in).
  left. reflexivity.
Defined.

Lemma assignment_is_sent_once_witness :
  let st := AssignShiftScreen.State (Some 3) (lit "2025-01-01") [] true true in
  let out := AssignShiftScreen.handleAssign accept_all (lit "E1") (st, logged_in) in
  fst out = Ok tt
  ∧ (snd out).1 = AssignShiftScreen.State (Some 3) (lit "2025-01-01") [] true false
  ∧ storage (snd out).2 = storage logged_in
  ∧ sent (snd out).2
    = sent logged_in ++ [assign_request (storage logged_in !! "token") (lit "E1") 3
                           (lit "2025-01-01") []]
  ∧ ∃ a, alerts (snd out).2 = alerts logged_in ++ [a].
Proof.
  apply (assignment_is_sent_once accept_all (lit "E1")
           (AssignShiftScreen.State (Some 3) (lit "2025-01-01") [] true true)
           logged_in 3%positive).
  reflexivity.
Defined.
